(** * Codebase Genius dashboard: a shallow embedding of [Frontend/app.py]

    The Streamlit script is a single top-to-bottom render pass that is run
    again on every user interaction and on every [st.rerun()].  The
    embedding follows the script section by section:

    - JSON values as [response.json()] produces them, with the handful of
      Python operations the script applies to them ([.get], [in], [[]],
      truthiness, [/], the [,] format);
    - the four network helpers, with their [try]/[except] written out over
      an oracle that answers each HTTP request;
    - the session state and the render pass, in a small monad that threads
      the session, records what is shown and which helper is called, and
      stops on [st.rerun()] or on an uncaught exception.

    Streamlit's display calls are recorded as elements of the page.  Three
    of them check an argument the script takes from the backend and raise
    when it is not acceptable ([st.progress], [st.download_button] and
    [st.metric]); these checks are written out.
    Icon glyphs in labels are left out of the string literals, and the two
    long fixed texts of the sidebar are abridged. *)

From Stdlib Require Import ZArith List String Ascii Bool Lia DecimalString.
Import ListNotations.
Local Open Scope string_scope.
Local Open Scope Z_scope.

(** ** JSON values and the Python operations used on them *)

#[local] Set Warnings "-register-all".

Inductive json : Type :=
| JNull
| JBool (b : bool)
| JNum (n : Z)            (* a numeral; fractions are not represented, the
                             script only asks whether a value is a number
                             and whether it is zero *)
| JStr (s : string)
| JArr (items : list json)
| JObj (fields : list (string * json)).

(** Python exceptions: the class (each one a subclass of [Exception]) and
    [str(e)]. *)
Inductive exn_class : Type :=
| RequestException | JSONDecodeError
| AttributeError | TypeError | KeyError | ValueError
| StreamlitAPIException.

Record exn : Type := Exn { exn_kind : exn_class; exn_str : string }.

(** A Python expression either yields a value or raises. *)
Inductive res (A : Type) : Type :=
| Ok (a : A)
| Raise (e : exn).
Arguments Ok {A} a.
Arguments Raise {A} e.

Definition res_bind {A B} (r : res A) (k : A -> res B) : res B :=
  match r with
  | Ok a => k a
  | Raise e => Raise e
  end.

(** [try: body  except Exception as e: handler(e)] *)
Definition try_except {A} (body : res A) (handler : exn -> res A) : res A :=
  match body with
  | Ok a => Ok a
  | Raise e => handler e
  end.

Module Py.

Fixpoint lookup (k : string) (fields : list (string * json)) : option json :=
  match fields with
  | [] => None
  | (k', v) :: rest => if String.eqb k k' then Some v else lookup k rest
  end.

(** [bool(v)] *)
Definition truthy (v : json) : bool :=
  match v with
  | JNull => false
  | JBool b => b
  | JNum n => negb (n =? 0)
  | JStr s => negb (String.eqb s EmptyString)
  | JArr items => match items with [] => false | _ => true end
  | JObj fields => match fields with [] => false | _ => true end
  end.

(** [recv.get(k, default)]: only a dict has the method. *)
Definition get (recv : json) (k : string) (default : json) : res json :=
  match recv with
  | JObj fields =>
      Ok (match lookup k fields with Some v => v | None => default end)
  | _ => Raise (Exn AttributeError "object has no attribute 'get'")
  end.

(** [needle in hay] for strings *)
Fixpoint substring_of (needle hay : string) : bool :=
  String.prefix needle hay
  || match hay with
     | EmptyString => false
     | String _ rest => substring_of needle rest
     end.

Definition is_str (k : string) (v : json) : bool :=
  match v with
  | JStr s => String.eqb s k
  | _ => false
  end.

(** [k in c] with [k] a string literal: key of a dict, element of a list,
    substring of a string; anything else is not iterable. *)
Definition contains (k : string) (c : json) : res bool :=
  match c with
  | JObj fields =>
      Ok (match lookup k fields with Some _ => true | None => false end)
  | JArr items => Ok (existsb (is_str k) items)
  | JStr s => Ok (substring_of k s)
  | _ => Raise (Exn TypeError "argument is not iterable")
  end.

(** [c[k]] with [k] a string literal *)
Definition subscript (c : json) (k : string) : res json :=
  match c with
  | JObj fields =>
      match lookup k fields with
      | Some v => Ok v
      | None => Raise (Exn KeyError k)
      end
  | JArr _ => Raise (Exn TypeError "list indices must be integers or slices, not str")
  | JStr _ => Raise (Exn TypeError "string indices must be integers, not 'str'")
  | _ => Raise (Exn TypeError "object is not subscriptable")
  end.

(** Python's [int], [float] and [bool] values *)
Definition is_number (v : json) : bool :=
  match v with
  | JNum _ | JBool _ => true
  | _ => false
  end.

(** [v == s] with [s] a string literal *)
Definition eq_str (v : json) (s : string) : bool := is_str s v.

(** [str(n)] for an int *)
Definition str_int (n : Z) : string := NilZero.string_of_int (Z.to_int n).

End Py.

(** ** The backend, seen from the client *)

Definition BACKEND_URL : string := "http://localhost:8000".

(** The four requests the script issues; the URL is [BACKEND_URL] followed
    by the path, with the task id formatted into it. *)
Inductive request : Type :=
| GetHealth
| PostAnalyze (repo_url : string)
| GetStatus (task_id : json)
| GetDownload (task_id : json).

(** What [requests.get]/[requests.post] hands back when it does not raise:
    the status code, and what [response.json()] evaluates to. *)
Record response : Type := Response {
  status_code : Z;
  response_json : res json
}.

(** The network: each request yields a response or raises (connection
    refused, timeout, ...). *)
Definition http : Type := request -> res response.

(** ** Helper functions *)

Definition check_backend_health (net : http) : res bool :=
  try_except
    (res_bind (net GetHealth) (fun response =>
       Ok (status_code response =? 200)))
    (fun _ => Ok false).

Definition analyze_repository (net : http) (repo_url : string) : res json :=
  try_except
    (res_bind (net (PostAnalyze repo_url)) (fun response =>
       if status_code response =? 200 then response_json response
       else Ok (JObj [("error",
                       JStr ("Failed with status code: "
                             ++ Py.str_int (status_code response)))])))
    (fun e => Ok (JObj [("error", JStr (exn_str e))])).

Definition check_task_status (net : http) (task_id : json) : res json :=
  try_except
    (res_bind (net (GetStatus task_id)) (fun response =>
       if status_code response =? 200 then response_json response
       else Ok (JObj [("status", JStr "error");
                      ("error", JStr "Failed to check status")])))
    (fun e => Ok (JObj [("status", JStr "error"); ("error", JStr (exn_str e))])).

Definition download_documentation (net : http) (task_id : json) : res json :=
  try_except
    (res_bind (net (GetDownload task_id)) (fun response =>
       if status_code response =? 200 then response_json response
       else Ok (JObj [("error", JStr "Failed to download documentation")])))
    (fun e => Ok (JObj [("error", JStr (exn_str e))])).

(** ** Session state *)

Record session : Type := Session {
  task_id : json;
  status : option string;
  documentation : option string;
  repo_url : string
}.

(** [st.session_state] as the script finds it: a key may be missing. *)
Record session_state : Type := SessionState {
  ss_task_id : option json;
  ss_status : option (option string);
  ss_documentation : option (option string);
  ss_repo_url : option string
}.

Definition fresh_session_state : session_state :=
  SessionState None None None None.

(** "Initialize session state": a missing key gets its default, a present
    one is kept. *)
Definition init_session (ss : session_state) : session :=
  {| task_id := match ss_task_id ss with Some v => v | None => JNull end;
     status := match ss_status ss with Some v => v | None => None end;
     documentation :=
       match ss_documentation ss with Some v => v | None => None end;
     repo_url :=
       match ss_repo_url ss with Some v => v | None => EmptyString end |}.

Definition set_task_id (v : json) (s : session) : session :=
  {| task_id := v; status := status s;
     documentation := documentation s; repo_url := repo_url s |}.

Definition set_status (v : option string) (s : session) : session :=
  {| task_id := task_id s; status := v;
     documentation := documentation s; repo_url := repo_url s |}.

Definition set_repo_url (v : string) (s : session) : session :=
  {| task_id := task_id s; status := status s;
     documentation := documentation s; repo_url := v |}.

(** ** What a render pass shows and does *)

(** Pieces of an f-string: literal text, [{v}] and [{v:,}]. *)
Inductive frag : Type :=
| Lit (s : string)
| Str (v : json)
| Grouped (v : json).

Definition text : Type := list frag.

Inductive button : Type := BtnUseExample | BtnAnalyze | BtnRefresh.

(** The fixed HTML blocks passed to [st.markdown(..., unsafe_allow_html=True)] *)
Inductive markup : Type := Css | MainHeader | Tagline | Footer.

Inductive progress_value : Type :=
| Percent (n : Z)            (* st.progress(100), st.progress(0) *)
| Ratio (pct : json).        (* st.progress(progress_pct / 100) *)

(** Elements in the order the script creates them.  The layout blocks
    ([st.sidebar], [st.columns], [st.container] and the bodies of the tabs)
    only place elements and are not listed. *)
Inductive element : Type :=
| Html (block : markup)
| Divider
| Header (label : string)
| Subheader (label : string)
| Success (t : text)
| Error (t : text)
| Info (t : text)
| Warning (t : text)
| Selectbox (label : string) (options : list string)
| TextInput (label : string) (value : string)
| Button (b : button)
| Spinner (label : string)
| Progress (v : progress_value)
| Markdown (body : json)
| Code (body : json)
| Tabs (labels : list string)
| DownloadButton (data : json) (file_name : string)
| Metric (label : string) (value : text)
| JsonView (v : json).

Inductive event : Type :=
| Called (r : request) (ret : res json)   (* a helper was called and returned *)
| Shown (el : element)
| Slept (seconds : Z).

(** The five places where the script calls a helper. *)
Inductive call_site : Type :=
| AtSidebar | AtSubmit | AtStatusPanel | AtResults | AtDownload.

(** Everything a pass reads from outside the session. *)
Record inputs : Type := Inputs {
  net : call_site -> http;          (* how the backend answers at each call *)
  example_choice : nat;             (* entry picked in the selectbox *)
  clicked : button -> bool;         (* value of each [st.button] *)
  text_input : string -> string;    (* content of the URL field, given its default *)
  now : string                      (* datetime.now().strftime('%Y%m%d_%H%M%S') *)
}.

(** ** The script monad *)

Inductive halt : Type :=
| Rerun                 (* st.rerun() *)
| Uncaught (e : exn).   (* an exception reached the top of the script *)

Inductive outcome (A : Type) : Type :=
| Done (a : A)
| Halted (h : halt).
Arguments Done {A} a.
Arguments Halted {A} h.

Definition script (A : Type) : Type :=
  session -> outcome A * session * list event.

Definition ret {A} (a : A) : script A := fun s => (Done a, s, []).

Definition bind {A B} (m : script A) (k : A -> script B) : script B :=
  fun s =>
    match m s with
    | (Done a, s1, t1) =>
        match k a s1 with
        | (o, s2, t2) => (o, s2, (t1 ++ t2)%list)
        end
    | (Halted h, s1, t1) => (Halted h, s1, t1)
    end.

Declare Scope script_scope.
Delimit Scope script_scope with script.
Notation "x <- m ;; k" := (bind m (fun x => k))
  (at level 61, m at next level, right associativity) : script_scope.
Notation "m ;; k" := (bind m (fun _ => k))
  (at level 61, right associativity) : script_scope.
Local Open Scope script_scope.

Definition emit (ev : event) : script unit := fun s => (Done tt, s, [ev]).
Definition show (el : element) : script unit := emit (Shown el).
Definition read : script session := fun s => (Done s, s, []).
Definition modify (f : session -> session) : script unit :=
  fun s => (Done tt, f s, []).
Definition rerun {A} : script A := fun s => (Halted Rerun, s, []).
Definition sleep (seconds : Z) : script unit := emit (Slept seconds).

(** Evaluate a Python expression; an exception it raises is not caught. *)
Definition eval {A} (r : res A) : script A :=
  fun s =>
    match r with
    | Ok a => (Done a, s, [])
    | Raise e => (Halted (Uncaught e), s, [])
    end.

(** Call a helper: the call is recorded with what it evaluated to. *)
Definition call (r : request) (result : res json) : script json :=
  emit (Called r result) ;; eval result.

Definition when (b : bool) (m : script unit) : script unit :=
  if b then m else ret tt.

(** ** The script, section by section *)

Definition placeholder : string := "Select an example...".

Definition example_repos : list string :=
  [ "https://github.com/jaseci-labs/jaclang";
    "https://github.com/fastapi/fastapi";
    "https://github.com/pallets/flask" ].

Definition backend_hint : string :=
  "Please start the backend server: cd BE/v2; jac serve main.jac".

Definition about_text : string :=
  "Codebase Genius is a multi-agent system that: analyzes code repositories, builds code context graphs, generates comprehensive docs, creates visual diagrams".

Definition github_prefix : string := "https://github.com/".

Definition is_empty (s : string) : bool := String.eqb s EmptyString.

(** [with st.sidebar: ...] *)
Definition sidebar (i : inputs) : script unit :=
  show (Header "Settings") ;;
  healthy <- eval (check_backend_health (net i AtSidebar)) ;;
  emit (Called GetHealth (Ok (JBool healthy))) ;;
  (if healthy then show (Success [Lit "Backend is running"])
   else show (Error [Lit "Backend is not responding"]) ;;
        show (Info [Lit backend_hint])) ;;
  show Divider ;;
  show (Subheader "About") ;;
  show (Info [Lit about_text]) ;;
  show Divider ;;
  show (Subheader "Examples") ;;
  let options := placeholder :: example_repos in
  show (Selectbox "Try an example:" options) ;;
  let selected_example := nth (example_choice i) options placeholder in
  when (negb (String.eqb selected_example placeholder))
    (show (Button BtnUseExample) ;;
     when (clicked i BtnUseExample)
       (modify (set_repo_url selected_example))).

(** The body of [if st.button("Analyze Repository", type="primary"):] *)
Definition submit (i : inputs) (repo_url : string) : script unit :=
  if is_empty repo_url then
    show (Error [Lit "Please enter a repository URL"])
  else if negb (String.prefix github_prefix repo_url) then
    show (Error [Lit "Please enter a valid GitHub URL"])
  else
    show (Spinner "Starting analysis...") ;;
    result <- call (PostAnalyze repo_url)
                   (analyze_repository (net i AtSubmit) repo_url) ;;
    has_error <- eval (Py.contains "error" result) ;;
    if has_error then
      message <- eval (Py.subscript result "error") ;;
      show (Error [Lit "Error: "; Str message])
    else
      new_id <- eval (Py.get result "task_id" JNull) ;;
      modify (set_task_id new_id) ;;
      modify (set_status (Some "processing")) ;;
      modify (set_repo_url repo_url) ;;
      s <- read ;;
      show (Success [Lit "Analysis started! Task ID: "; Str (task_id s)]) ;;
      rerun.

(** [with col1: ...] *)
Definition input_column (i : inputs) : script unit :=
  show (Header "Generate Documentation") ;;
  s <- read ;;
  show (TextInput "GitHub Repository URL" (repo_url s)) ;;
  let repo_url := text_input i (repo_url s) in
  show (Button BtnAnalyze) ;;
  when (clicked i BtnAnalyze) (submit i repo_url).

(** [status_data.get("progress", {}).get(key, default)] *)
Definition progress_field (status_data : json) (key : string) (default : json)
  : res json :=
  res_bind (Py.get status_data "progress" (JObj [])) (fun progress =>
    Py.get progress key default).

Definition current_status_of (status_data : json) : res json :=
  progress_field status_data "status" (JStr "unknown").

(** [progress_pct / 100] *)
Definition divide_by_100 (v : json) : res progress_value :=
  if Py.is_number v then Ok (Ratio v)
  else Raise (Exn TypeError "unsupported operand type(s) for /").

(** [current_status not in ["completed", "error"]] *)
Definition not_terminal (current_status : json) : bool :=
  negb (Py.eq_str current_status "completed"
        || Py.eq_str current_status "error").

(** *** Argument checks of Streamlit

    [st.progress] takes an int from 0 to 100 or a float from 0.0 to 1.0 and
    raises [StreamlitAPIException] otherwise; [progress_pct / 100] is a
    float, in range for a percentage from 0 to 100 ([True / 100] and
    [False / 100] are in range too). *)
Definition progress_accepts (v : progress_value) : bool :=
  match v with
  | Percent n => (0 <=? n) && (n <=? 100)
  | Ratio (JNum n) => (0 <=? n) && (n <=? 100)
  | Ratio (JBool _) => true
  | Ratio _ => false
  end.

Definition st_progress (v : progress_value) : script unit :=
  eval (if progress_accepts v then Ok tt
        else Raise (Exn StreamlitAPIException
                      "Progress Value has invalid value")) ;;
  show (Progress v).

(** [st.metric] takes an int, a float, a str or [None] as its value and
    raises [TypeError] for anything else, here a list or a dict. *)
Definition metric_accepts (value : json) : bool :=
  match value with
  | JArr _ | JObj _ => false
  | _ => true
  end.

Definition st_metric (label : string) (value : json) : script unit :=
  eval (if metric_accepts value then Ok tt
        else Raise (Exn TypeError "value is not an accepted type")) ;;
  show (Metric label [Str value]).

(** [st.download_button] takes a str, bytes or a file as its data and
    raises [StreamlitAPIException] for anything else; of the JSON values
    only a string is accepted. *)
Definition download_accepts (data : json) : bool :=
  match data with
  | JStr _ => true
  | _ => false
  end.

Definition st_download_button (data : json) (name : string) : script unit :=
  eval (if download_accepts data then Ok tt
        else Raise (Exn StreamlitAPIException "Invalid binary data format")) ;;
  show (DownloadButton data name).

(** "Display status" *)
Definition status_display (current_status progress_pct current_step : json)
  : script unit :=
  if Py.eq_str current_status "completed" then
    show (Success [Lit "Completed!"]) ;;
    st_progress (Percent 100)
  else if Py.eq_str current_status "error" then
    show (Error [Lit "Error occurred"]) ;;
    st_progress (Percent 0)
  else if Py.eq_str current_status "processing" then
    show (Info [Lit "Processing: "; Str current_step]) ;;
    ratio <- eval (divide_by_100 progress_pct) ;;
    st_progress ratio
  else
    show (Warning [Lit "Status: "; Str current_status]) ;;
    st_progress (Percent 0).

(** "Auto-refresh button" *)
Definition auto_refresh (i : inputs) (current_status : json) : script unit :=
  when (not_terminal current_status)
    (show (Button BtnRefresh) ;;
     when (clicked i BtnRefresh) rerun ;;
     sleep 3 ;;
     rerun).

(** [with col2: ...] *)
Definition status_column (i : inputs) : script unit :=
  s <- read ;;
  when (Py.truthy (task_id s))
    (show (Header "Status") ;;
     status_data <- call (GetStatus (task_id s))
                         (check_task_status (net i AtStatusPanel) (task_id s)) ;;
     current_status <- eval (current_status_of status_data) ;;
     progress_pct <-
       eval (progress_field status_data "progress_percentage" (JNum 0)) ;;
     current_step <-
       eval (progress_field status_data "current_step" (JStr EmptyString)) ;;
     status_display current_status progress_pct current_step ;;
     auto_refresh i current_status).

(** [f"{v:,}"]: the thousands separator is defined for numbers only. *)
Definition format_grouped (v : json) : res frag :=
  if Py.is_number v then Ok (Grouped v)
  else match v with
       | JStr _ => Raise (Exn ValueError "Cannot specify ',' with 's'.")
       | _ => Raise (Exn TypeError "unsupported format string")
       end.

Definition file_name (now : string) : string :=
  "documentation_" ++ now ++ ".md".

(** The body of [with tab3:] *)
Definition stats_tab (status_data : json) : script unit :=
  result <- eval (progress_field status_data "result" (JObj [])) ;;
  stats <- eval (Py.get result "stats" (JObj [])) ;;
  total_files <- eval (Py.get stats "total_files" (JNum 0)) ;;
  st_metric "Total Files" total_files ;;
  total_entities <- eval (Py.get stats "total_entities" (JNum 0)) ;;
  st_metric "Total Entities" total_entities ;;
  size <- eval (Py.get stats "documentation_size" (JNum 0)) ;;
  grouped <- eval (format_grouped size) ;;
  show (Metric "Doc Size" [grouped; Lit " chars"]) ;;
  repo_info <- eval (Py.get result "repo_info" JNull) ;;
  when (Py.truthy repo_info)
    (show (Subheader "Repository Information") ;;
     repo_info <- eval (Py.subscript result "repo_info") ;;
     show (JsonView repo_info)).

(** The body of [if current_status == "completed":] *)
Definition show_documentation (i : inputs) (tid status_data : json)
  : script unit :=
  doc_data <- call (GetDownload tid)
                   (download_documentation (net i AtDownload) tid) ;;
  has_error <- eval (Py.contains "error" doc_data) ;;
  if negb has_error then
    documentation <- eval (Py.get doc_data "doc_content" (JStr EmptyString)) ;;
    if Py.truthy documentation then
      show (Tabs ["Preview"; "Raw Markdown"; "Stats"]) ;;
      show (Markdown documentation) ;;
      show (Code documentation) ;;
      st_download_button documentation (file_name (now i)) ;;
      stats_tab status_data
    else
      show (Warning [Lit "Documentation is empty or not yet generated."])
  else
    message <- eval (Py.subscript doc_data "error") ;;
    show (Error [Lit "Error downloading documentation: "; Str message]).

(** "Results section" *)
Definition results_section (i : inputs) : script unit :=
  s <- read ;;
  when (Py.truthy (task_id s))
    (show Divider ;;
     show (Header "Documentation") ;;
     status_data <- call (GetStatus (task_id s))
                         (check_task_status (net i AtResults) (task_id s)) ;;
     current_status <- eval (current_status_of status_data) ;;
     if Py.eq_str current_status "completed" then
       show_documentation i (task_id s) status_data
     else if Py.eq_str current_status "error" then
       show (Error [Lit "An error occurred during analysis. Please try again."])
     else if Py.eq_str current_status "processing" then
       show (Info [Lit "Analysis in progress... Please wait."])
     else
       show (Info [Lit "Waiting for analysis to start..."])).

(** One run of the script body, after the session state is initialised. *)
Definition render (i : inputs) : script unit :=
  show (Html Css) ;;
  show (Html MainHeader) ;;
  show (Html Tagline) ;;
  sidebar i ;;
  input_column i ;;
  status_column i ;;
  results_section i ;;
  show Divider ;;
  show (Html Footer).

(** One run of the whole script on the session state it finds. *)
Definition run_script (i : inputs) (ss : session_state)
  : outcome unit * session * list event :=
  render i (init_session ss).

(** Successive runs: each starts from the session the previous one left,
    however that one ended. *)
Fixpoint run_passes (passes : list inputs) (s : session) : session :=
  match passes with
  | [] => s
  | i :: rest =>
      match render i s with
      | (_, s', _) => run_passes rest s'
      end
  end.

(** ** Reading a trace *)

Definition is_analyze_call (ev : event) : bool :=
  match ev with Called (PostAnalyze _) _ => true | _ => false end.

Definition is_download_call (ev : event) : bool :=
  match ev with Called (GetDownload _) _ => true | _ => false end.

Definition is_sleep (ev : event) : bool :=
  match ev with Slept _ => true | _ => false end.

(** The values [check_task_status] returned, in order. *)
Fixpoint polls (tr : list event) : list (res json) :=
  match tr with
  | [] => []
  | Called (GetStatus _) v :: rest => v :: polls rest
  | _ :: rest => polls rest
  end.

Definition latest_poll (tr : list event) : option (res json) :=
  last (map Some (polls tr)) None.

Definition downloads (tr : list event) : nat :=
  List.length (filter is_download_call tr).

Definition analyze_calls (tr : list event) : nat :=
  List.length (filter is_analyze_call tr).

Definition sleeps (tr : list event) : list event := filter is_sleep tr.

Definition trace_of {A} (r : outcome A * session * list event) : list event :=
  snd r.
Definition session_of {A} (r : outcome A * session * list event) : session :=
  snd (fst r).
Definition outcome_of {A} (r : outcome A * session * list event) : outcome A :=
  fst (fst r).

Definition is_poll (ev : event) : bool :=
  match ev with Called (GetStatus _) _ => true | _ => false end.

(** Events that neither poll, download, submit nor wait. *)
Definition is_display (ev : event) : bool :=
  match ev with
  | Shown _ | Called GetHealth _ => true
  | _ => false
  end.

(** The rendered view: the elements of a trace, in order. *)
Fixpoint shown (tr : list event) : list element :=
  match tr with
  | [] => []
  | Shown el :: rest => el :: shown rest
  | _ :: rest => shown rest
  end.

(** The same element with the name of the offered file blanked. *)
Definition without_file_name (el : element) : element :=
  match el with
  | DownloadButton data _ => DownloadButton data EmptyString
  | _ => el
  end.

Definition page_top : list event :=
  [Shown (Html Css); Shown (Html MainHeader); Shown (Html Tagline)].

Definition page_bottom : list event := [Shown Divider; Shown (Html Footer)].

(** ** Vocabulary of the statements *)

(** A request that did not come back with status 200. *)
Definition is_failure (r : res response) : bool :=
  match r with
  | Ok response => negb (status_code response =? 200)
  | Raise _ => true
  end.

(** A helper returned a dict with an ["error"] key. *)
Definition error_shaped (v : res json) : bool :=
  match v with
  | Ok (JObj fields) =>
      match Py.lookup "error" fields with Some _ => true | None => false end
  | _ => false
  end.

(** The URL the analyze handler rejects. *)
Definition invalid_url (u : string) : bool :=
  is_empty u || negb (String.prefix github_prefix u).

Definition validation_message (u : string) : string :=
  if is_empty u then "Please enter a repository URL"
  else "Please enter a valid GitHub URL".

(** The content of the URL field when the analyze button is evaluated. *)
Definition entered_url (i : inputs) (s : session) : string :=
  text_input i (repo_url (session_of (sidebar i s))).

(** [progress_percentage] of a status record is a number, so that
    [progress_pct / 100] is defined. *)
Definition progress_is_number (status_data : json) : bool :=
  match progress_field status_data "progress_percentage" (JNum 0) with
  | Ok v => Py.is_number v
  | Raise _ => false
  end.

(** A script leaves [f] of the session as it found it. *)
Definition keeps {A X} (f : session -> X) (m : script A) : Prop :=
  forall s, f (session_of (m s)) = f s.

(** Every event of a script satisfies [P]. *)
Definition emits {A} (P : event -> bool) (m : script A) : Prop :=
  forall s, forallb P (trace_of (m s)) = true.

(** How far a pass gets, and what it has polled by then. *)
Inductive pass_shape (i : inputs) (s : session) : Prop :=
| HaltsInInput (before : list event) (h : halt) :
    outcome_of (input_column i (session_of (sidebar i s))) = Halted h ->
    polls before = [] -> downloads before = 0%nat -> sleeps before = [] ->
    trace_of (render i s) = before ->
    pass_shape i s
| WithoutTask (before : list event) :
    Py.truthy (task_id s) = false ->
    polls before = [] -> downloads before = 0%nat -> sleeps before = [] ->
    trace_of (render i s) = before ->
    pass_shape i s
| StopsInStatus (before t3 : list event) (h : halt) (s1 : session) :
    polls before = [] -> downloads before = 0%nat -> sleeps before = [] ->
    Py.truthy (task_id s1) = true -> task_id s1 = task_id s ->
    status_column i s1 = (Halted h, s1, t3) ->
    render i s = (Halted h, s1, before ++ t3)%list ->
    pass_shape i s
| ReachesResults (before t3 t4 : list event) (o4 : outcome unit) (s1 : session) :
    polls before = [] -> downloads before = 0%nat -> sleeps before = [] ->
    Py.truthy (task_id s1) = true -> task_id s1 = task_id s ->
    status_column i s1 = (Done tt, s1, t3) ->
    results_section i s1 = (o4, s1, t4) ->
    render i s
    = (o4, s1,
       before ++ t3 ++ t4
       ++ match o4 with Done _ => page_bottom | Halted _ => [] end)%list ->
    pass_shape i s.

(** ** Sample backends and inputs *)

Definition json_reply (code : Z) (body : json) : res response :=
  Ok (Response code (Ok body)).

Definition status_record (st : string) (pct : Z) (step : string) : json :=
  JObj [("progress",
         JObj [("status", JStr st);
               ("progress_percentage", JNum pct);
               ("current_step", JStr step)])].

(** A backend that works: it accepts the submission as task [task-1],
    reports status [st] and serves a one-line document. *)
Definition backend_reporting (st : string) : http :=
  fun r =>
    match r with
    | GetHealth => json_reply 200 (JObj [("status", JStr "ok")])
    | PostAnalyze _ => json_reply 200 (JObj [("task_id", JStr "task-1")])
    | GetStatus _ => json_reply 200 (status_record st 40 "parsing")
    | GetDownload _ => json_reply 200 (JObj [("doc_content", JStr "# Widgets")])
    end.

Definition backend_down : http :=
  fun _ => Raise (Exn RequestException "Connection refused").

(** A backend that answers every request with status 503. *)
Definition backend_unavailable : http :=
  fun _ => json_reply 503 JNull.

(** A backend that accepts a submission without naming a task. *)
Definition backend_without_task_id : http :=
  fun _ => json_reply 200 (JObj [("message", JStr "queued")]).

Definition button_eqb (a b : button) : bool :=
  match a, b with
  | BtnUseExample, BtnUseExample
  | BtnAnalyze, BtnAnalyze
  | BtnRefresh, BtnRefresh => true
  | _, _ => false
  end.

Definition pressing (b : option button) : button -> bool :=
  fun b' => match b with Some b0 => button_eqb b0 b' | None => false end.

Definition sample_inputs (backend : http) (press : option button)
    (field : string) (clock : string) : inputs :=
  {| net := fun _ => backend;
     example_choice := 0;
     clicked := pressing press;
     text_input := fun _ => field;
     now := clock |}.

Definition idle_session : session :=
  init_session fresh_session_state.

Definition busy_session : session :=
  {| task_id := JStr "task-1"; status := Some "processing";
     documentation := None; repo_url := "https://github.com/acme/widgets" |}.

(** ** Further vocabulary *)

(** A JSON object, the only value with [.get]. *)
Definition is_object (v : json) : bool :=
  match v with
  | JObj _ => true
  | _ => false
  end.

(** A status or download request names the task [tid]. *)
Definition names_task (tid : json) (ev : event) : Prop :=
  match ev with
  | Called (GetStatus t) _ | Called (GetDownload t) _ => t = tid
  | _ => True
  end.

(** The session status is [None] or ["processing"], and a task id is set
    only together with ["processing"]. *)
Definition status_invariant (s : session) : Prop :=
  (status s = None \/ status s = Some "processing")
  /\ (Py.truthy (task_id s) = true -> status s = Some "processing").

(** A backend that answers every request with status 200 and [body]. *)
Definition backend_replying (body : json) : http :=
  fun _ => json_reply 200 body.

(** A backend whose 200 responses carry no JSON. *)
Definition backend_garbled : http :=
  fun _ => Ok (Response 200 (Raise (Exn JSONDecodeError "Expecting value"))).

(** The record [check_task_status] returns when the request failed. *)
Definition failed_poll (message : string) : json :=
  JObj [("status", JStr "error"); ("error", JStr message)].

(** Inputs with one backend for the status polls and another for the
    download. *)
Definition split_inputs (status_backend download_backend : http)
    (clock : string) : inputs :=
  {| net := fun site =>
              match site with
              | AtDownload => download_backend
              | _ => status_backend
              end;
     example_choice := 0;
     clicked := pressing None;
     text_input := fun d => d;
     now := clock |}.

Definition is_download_button (ev : event) : bool :=
  match ev with
  | Shown (DownloadButton _ _) => true
  | _ => false
  end.

(** The percentage of a status record is one [st.progress] accepts after
    the division by 100: a number from 0 to 100. *)
Definition progress_in_range (status_data : json) : bool :=
  match progress_field status_data "progress_percentage" (JNum 0) with
  | Ok pct => progress_accepts (Ratio pct)
  | Raise _ => false
  end.

(** The record says ["status": "error"] at its top level, as the record of
    a failed poll does. *)
Definition reports_failure (status_data : json) : bool :=
  match status_data with
  | JObj fields =>
      match Py.lookup "status" fields with
      | Some v => Py.eq_str v "error"
      | None => false
      end
  | _ => false
  end.

(** * Properties *)

#[local] Arguments String.eqb : simpl never.
#[local] Arguments String.prefix : simpl never.
#[local] Arguments Z.eqb : simpl never.
#[local] Arguments nth : simpl never.
#[local] Arguments Py.truthy : simpl never.
#[local] Arguments Py.eq_str : simpl never.
#[local] Arguments Py.get : simpl never.
#[local] Arguments Py.contains : simpl never.
#[local] Arguments Py.subscript : simpl never.
#[local] Arguments Py.is_number : simpl never.
#[local] Arguments is_empty : simpl never.
#[local] Arguments current_status_of : simpl never.
#[local] Arguments progress_field : simpl never.
#[local] Arguments divide_by_100 : simpl never.
#[local] Arguments format_grouped : simpl never.
#[local] Arguments not_terminal : simpl never.
#[local] Arguments file_name : simpl never.
#[local] Arguments check_backend_health : simpl never.
#[local] Arguments analyze_repository : simpl never.
#[local] Arguments check_task_status : simpl never.
#[local] Arguments download_documentation : simpl never.

(** ** The helpers always return *)

Lemma check_backend_health_returns net :
  exists b, check_backend_health net = Ok b.
Proof.
  unfold check_backend_health, try_except, res_bind.
  destruct (net GetHealth); eauto.
Qed.

Section HelperShape.
Variable net : http.

(** A helper of the shape shared by the three JSON helpers: the body of
    the [try] may raise only through [response.json()], and the handler
    turns that into a dict. *)
Variable req : request.
Variable on_status : Z -> json.
Variable on_exception : exn -> json.

Let helper : res json :=
  try_except
    (res_bind (net req) (fun response =>
       if status_code response =? 200 then response_json response
       else Ok (on_status (status_code response))))
    (fun e => Ok (on_exception e)).

Lemma helper_cases :
  (exists r j, net req = Ok r /\ status_code r = 200
               /\ response_json r = Ok j /\ helper = Ok j)
  \/ (exists r e, net req = Ok r /\ status_code r = 200
                  /\ response_json r = Raise e /\ helper = Ok (on_exception e))
  \/ (exists r, net req = Ok r /\ status_code r <> 200
                /\ helper = Ok (on_status (status_code r)))
  \/ (exists e, net req = Raise e /\ helper = Ok (on_exception e)).
Proof.
  unfold helper, try_except, res_bind.
  destruct (net req) as [r|e].
  - destruct (Z.eqb_spec (status_code r) 200) as [E|E].
    + destruct (response_json r) as [j|e] eqn:Ej.
      * left. eauto 6.
      * right; left. eauto 6.
    + right; right; left. eauto.
  - right; right; right. eauto.
Qed.
End HelperShape.

Lemma analyze_repository_cases net url :
  let failed code := JObj [("error", JStr ("Failed with status code: " ++ Py.str_int code))] in
  let caught e := JObj [("error", JStr (exn_str e))] in
  (exists r j, net (PostAnalyze url) = Ok r /\ status_code r = 200
               /\ response_json r = Ok j /\ analyze_repository net url = Ok j)
  \/ (exists r e, net (PostAnalyze url) = Ok r /\ status_code r = 200
                  /\ response_json r = Raise e
                  /\ analyze_repository net url = Ok (caught e))
  \/ (exists r, net (PostAnalyze url) = Ok r /\ status_code r <> 200
                /\ analyze_repository net url = Ok (failed (status_code r)))
  \/ (exists e, net (PostAnalyze url) = Raise e
                /\ analyze_repository net url = Ok (caught e)).
Proof.
  exact (helper_cases net (PostAnalyze url)
           (fun code => JObj [("error", JStr ("Failed with status code: "
                                                ++ Py.str_int code))])
           (fun e => JObj [("error", JStr (exn_str e))])).
Qed.

Lemma check_task_status_cases net tid :
  let failed := JObj [("status", JStr "error"); ("error", JStr "Failed to check status")] in
  let caught e := JObj [("status", JStr "error"); ("error", JStr (exn_str e))] in
  (exists r j, net (GetStatus tid) = Ok r /\ status_code r = 200
               /\ response_json r = Ok j /\ check_task_status net tid = Ok j)
  \/ (exists r e, net (GetStatus tid) = Ok r /\ status_code r = 200
                  /\ response_json r = Raise e
                  /\ check_task_status net tid = Ok (caught e))
  \/ (exists r, net (GetStatus tid) = Ok r /\ status_code r <> 200
                /\ check_task_status net tid = Ok failed)
  \/ (exists e, net (GetStatus tid) = Raise e
                /\ check_task_status net tid = Ok (caught e)).
Proof.
  exact (helper_cases net (GetStatus tid)
           (fun _ => JObj [("status", JStr "error");
                           ("error", JStr "Failed to check status")])
           (fun e => JObj [("status", JStr "error");
                           ("error", JStr (exn_str e))])).
Qed.

Lemma download_documentation_cases net tid :
  let failed := JObj [("error", JStr "Failed to download documentation")] in
  let caught e := JObj [("error", JStr (exn_str e))] in
  (exists r j, net (GetDownload tid) = Ok r /\ status_code r = 200
               /\ response_json r = Ok j /\ download_documentation net tid = Ok j)
  \/ (exists r e, net (GetDownload tid) = Ok r /\ status_code r = 200
                  /\ response_json r = Raise e
                  /\ download_documentation net tid = Ok (caught e))
  \/ (exists r, net (GetDownload tid) = Ok r /\ status_code r <> 200
                /\ download_documentation net tid = Ok failed)
  \/ (exists e, net (GetDownload tid) = Raise e
                /\ download_documentation net tid = Ok (caught e)).
Proof.
  exact (helper_cases net (GetDownload tid)
           (fun _ => JObj [("error", JStr "Failed to download documentation")])
           (fun e => JObj [("error", JStr (exn_str e))])).
Qed.

Lemma analyze_repository_returns net url :
  exists v, analyze_repository net url = Ok v.
Proof.
  destruct (analyze_repository_cases net url)
    as [(?&?&?&?&?&H)|[(?&?&?&?&?&H)|[(?&?&?&H)|(?&?&H)]]]; eauto.
Qed.

Lemma check_task_status_returns net tid :
  exists v, check_task_status net tid = Ok v.
Proof.
  destruct (check_task_status_cases net tid)
    as [(?&?&?&?&?&H)|[(?&?&?&?&?&H)|[(?&?&?&H)|(?&?&H)]]]; eauto.
Qed.

Lemma download_documentation_returns net tid :
  exists v, download_documentation net tid = Ok v.
Proof.
  destruct (download_documentation_cases net tid)
    as [(?&?&?&?&?&H)|[(?&?&?&?&?&H)|[(?&?&?&H)|(?&?&H)]]]; eauto.
Qed.

(** ** The network helpers *)

(** C7. [check_backend_health] returns [True] exactly when the GET to the
    health endpoint comes back with status code 200; a raised exception and
    a status code other than 200 both give [False], and the helper itself
    never raises. *)
Theorem check_backend_health_true_iff net :
  (check_backend_health net = Ok true <->
   exists r, net GetHealth = Ok r /\ status_code r = 200)
  /\ (forall e, net GetHealth = Raise e -> check_backend_health net = Ok false)
  /\ (forall r, net GetHealth = Ok r -> status_code r <> 200 ->
                check_backend_health net = Ok false).
Proof.
  unfold check_backend_health, try_except, res_bind.
  repeat split.
  - destruct (net GetHealth) as [r|e]; [|discriminate].
    intros H. exists r. split; [reflexivity|].
    apply Z.eqb_eq. congruence.
  - intros (r & Hr & Hcode). rewrite Hr.
    apply Z.eqb_eq in Hcode. now rewrite Hcode.
  - intros e He. now rewrite He.
  - intros r Hr Hcode. rewrite Hr.
    apply Z.eqb_neq in Hcode. now rewrite Hcode.
Qed.

Lemma check_backend_health_witness :
  check_backend_health backend_down = Ok false
  /\ check_backend_health backend_unavailable = Ok false
  /\ check_backend_health (backend_reporting "processing") = Ok true.
Proof.
  split; [|split].
  - apply (proj1 (proj2 (check_backend_health_true_iff backend_down))
             (Exn RequestException "Connection refused")).
    reflexivity.
  - apply (proj2 (proj2 (check_backend_health_true_iff backend_unavailable))
             (Response 503 (Ok JNull))).
    + reflexivity.
    + discriminate.
  - apply (proj1 (check_backend_health_true_iff (backend_reporting "processing"))).
    eexists. split; reflexivity.
Defined.

(** C2. When the request raises, or its response has a status code other
    than 200, each of [analyze_repository], [check_task_status] and
    [download_documentation] returns (it does not raise) a dict that has an
    ["error"] key. *)
Theorem failed_request_gives_error_dict net url tid :
  (is_failure (net (PostAnalyze url)) = true ->
   error_shaped (analyze_repository net url) = true)
  /\ (is_failure (net (GetStatus tid)) = true ->
      error_shaped (check_task_status net tid) = true)
  /\ (is_failure (net (GetDownload tid)) = true ->
      error_shaped (download_documentation net tid) = true).
Proof.
  unfold is_failure. repeat split; intros Hfail.
  - destruct (analyze_repository_cases net url)
      as [(r&j&Hr&Hc&_)|[(r&e&Hr&Hc&_)|[(r&_&_&H)|(e&_&H)]]];
      try (rewrite H; reflexivity);
      rewrite Hr, Hc in Hfail; discriminate.
  - destruct (check_task_status_cases net tid)
      as [(r&j&Hr&Hc&_)|[(r&e&Hr&Hc&_)|[(r&_&_&H)|(e&_&H)]]];
      try (rewrite H; reflexivity);
      rewrite Hr, Hc in Hfail; discriminate.
  - destruct (download_documentation_cases net tid)
      as [(r&j&Hr&Hc&_)|[(r&e&Hr&Hc&_)|[(r&_&_&H)|(e&_&H)]]];
      try (rewrite H; reflexivity);
      rewrite Hr, Hc in Hfail; discriminate.
Qed.

Lemma failed_request_gives_error_dict_witness :
  error_shaped (analyze_repository backend_unavailable "https://github.com/acme/widgets") = true
  /\ error_shaped (check_task_status backend_down (JStr "task-1")) = true
  /\ error_shaped (download_documentation backend_unavailable (JStr "task-1")) = true.
Proof.
  split; [|split].
  - apply (proj1 (failed_request_gives_error_dict backend_unavailable
                    "https://github.com/acme/widgets" (JStr "task-1"))).
    reflexivity.
  - apply (proj1 (proj2 (failed_request_gives_error_dict backend_down
                           "https://github.com/acme/widgets" (JStr "task-1")))).
    reflexivity.
  - apply (proj2 (proj2 (failed_request_gives_error_dict backend_unavailable
                           "https://github.com/acme/widgets" (JStr "task-1")))).
    reflexivity.
Defined.

(** C8. For every task id, [check_task_status] returns the JSON of the
    response as it is when the status code is 200, and otherwise (another
    status code, or a raised exception) the dict
    [{"status": "error", "error": message}]. *)
Theorem check_task_status_result net tid :
  (forall r j, net (GetStatus tid) = Ok r -> status_code r = 200 ->
               response_json r = Ok j ->
               check_task_status net tid = Ok j)
  /\ (is_failure (net (GetStatus tid)) = true ->
      exists message,
        check_task_status net tid
        = Ok (JObj [("status", JStr "error"); ("error", JStr message)]))
  /\ (forall r e, net (GetStatus tid) = Ok r -> status_code r = 200 ->
                  response_json r = Raise e ->
                  check_task_status net tid
                  = Ok (JObj [("status", JStr "error");
                              ("error", JStr (exn_str e))])).
Proof.
  destruct (check_task_status_cases net tid)
    as [(r&j&Hr&Hc&Hj&H)|[(r&e&Hr&Hc&Hj&H)|[(r&Hr&Hc&H)|(e&Hr&H)]]];
    unfold is_failure; rewrite Hr; repeat split.
  all: try (intros r' j' Er ? Ej; injection Er as <-; congruence).
  all: try (intros r' e' Er ? Ej; injection Er as <-; congruence).
  all: try discriminate.
  all: try (intros _; eexists; exact H).
  all: try (apply Z.eqb_eq in Hc; rewrite Hc; discriminate).
Qed.

Lemma check_task_status_result_witness :
  check_task_status (backend_reporting "completed") (JStr "task-1")
  = Ok (status_record "completed" 40 "parsing")
  /\ exists message,
       check_task_status backend_unavailable (JStr "task-1")
       = Ok (JObj [("status", JStr "error"); ("error", JStr message)]).
Proof.
  split.
  - apply (proj1 (check_task_status_result (backend_reporting "completed")
                    (JStr "task-1"))
             (Response 200 (Ok (status_record "completed" 40 "parsing"))));
      reflexivity.
  - apply (proj1 (proj2 (check_task_status_result backend_unavailable
                           (JStr "task-1")))).
    reflexivity.
Defined.

(** ** Reading traces *)

Lemma polls_app t1 t2 : polls (t1 ++ t2) = (polls t1 ++ polls t2)%list.
Proof.
  induction t1 as [|ev t1 IH]; [reflexivity|].
  destruct ev as [[] ?| |]; cbn; now rewrite ?IH.
Qed.

Lemma shown_app t1 t2 : shown (t1 ++ t2) = (shown t1 ++ shown t2)%list.
Proof.
  induction t1 as [|ev t1 IH]; [reflexivity|].
  destruct ev; cbn; now rewrite ?IH.
Qed.

Lemma downloads_app t1 t2 :
  downloads (t1 ++ t2) = (downloads t1 + downloads t2)%nat.
Proof. unfold downloads. now rewrite filter_app, length_app. Qed.

Lemma analyze_calls_app t1 t2 :
  analyze_calls (t1 ++ t2) = (analyze_calls t1 + analyze_calls t2)%nat.
Proof. unfold analyze_calls. now rewrite filter_app, length_app. Qed.

Lemma sleeps_app t1 t2 : sleeps (t1 ++ t2) = (sleeps t1 ++ sleeps t2)%list.
Proof. apply filter_app. Qed.

(** A trace of display events holds no poll, download, submission or wait. *)
Lemma display_only tr :
  forallb is_display tr = true ->
  polls tr = [] /\ downloads tr = 0%nat /\ analyze_calls tr = 0%nat
  /\ sleeps tr = [].
Proof.
  unfold downloads, analyze_calls, sleeps.
  induction tr as [|ev tr IH]; [now repeat split|].
  cbn [forallb]. intros H. apply andb_prop in H as [Hev Htr].
  destruct (IH Htr) as (Hp & Hd & Ha & Hs).
  destruct ev as [[] ?| |]; try discriminate; cbn; auto.
Qed.

Lemma forallb_weaken {A} (P Q : A -> bool) l :
  (forall x, P x = true -> Q x = true) ->
  forallb P l = true -> forallb Q l = true.
Proof.
  intros HPQ H. rewrite forallb_forall in *. auto.
Qed.

(** ** Frame and trace rules of the script monad *)

Section Rules.
Context {A B X : Type}.
Variable f : session -> X.
Variable P : event -> bool.

Lemma keeps_bind (m : script A) (k : A -> script B) :
  keeps f m -> (forall a, keeps f (k a)) -> keeps f (bind m k).
Proof.
  intros Hm Hk s. unfold bind, session_of.
  specialize (Hm s). unfold session_of in Hm.
  destruct (m s) as [[[a|h] s1] t1]; cbn in *; auto.
  specialize (Hk a s1). unfold session_of in Hk.
  destruct (k a s1) as [[o s2] t2]; cbn in *; congruence.
Qed.

Lemma emits_bind (m : script A) (k : A -> script B) :
  emits P m -> (forall a, emits P (k a)) -> emits P (bind m k).
Proof.
  intros Hm Hk s. unfold bind, trace_of.
  specialize (Hm s). unfold trace_of in Hm.
  destruct (m s) as [[[a|h] s1] t1]; cbn in *; auto.
  specialize (Hk a s1). unfold trace_of in Hk.
  destruct (k a s1) as [[o s2] t2]; cbn in *.
  now rewrite forallb_app, Hm, Hk.
Qed.

Lemma keeps_ret (a : A) : keeps f (ret a).
Proof. intro; reflexivity. Qed.
Lemma keeps_emit ev : keeps f (emit ev).
Proof. intro; reflexivity. Qed.
Lemma keeps_show el : keeps f (show el).
Proof. intro; reflexivity. Qed.
Lemma keeps_read : keeps f read.
Proof. intro; reflexivity. Qed.
Lemma keeps_rerun : keeps f (@rerun A).
Proof. intro; reflexivity. Qed.
Lemma keeps_sleep n : keeps f (sleep n).
Proof. intro; reflexivity. Qed.
Lemma keeps_eval (r : res A) : keeps f (eval r).
Proof. intro s; destruct r; reflexivity. Qed.
Lemma keeps_call r v : keeps f (call r v).
Proof. intro s; destruct v; reflexivity. Qed.
Lemma keeps_when b m : keeps f m -> keeps f (when b m).
Proof. destruct b; cbn; auto. intros _ s; reflexivity. Qed.
Lemma keeps_if (b : bool) (m1 m2 : script A) :
  keeps f m1 -> keeps f m2 -> keeps f (if b then m1 else m2).
Proof. destruct b; auto. Qed.
Lemma keeps_modify g : (forall s, f (g s) = f s) -> keeps f (modify g).
Proof. intros H s. apply H. Qed.

Lemma emits_ret (a : A) : emits P (ret a).
Proof. intro; reflexivity. Qed.
Lemma emits_emit ev : P ev = true -> emits P (emit ev).
Proof. intros H s. cbn. now rewrite H. Qed.
Lemma emits_show el : P (Shown el) = true -> emits P (show el).
Proof. apply emits_emit. Qed.
Lemma emits_read : emits P read.
Proof. intro; reflexivity. Qed.
Lemma emits_rerun : emits P (@rerun A).
Proof. intro; reflexivity. Qed.
Lemma emits_sleep n : P (Slept n) = true -> emits P (sleep n).
Proof. apply emits_emit. Qed.
Lemma emits_eval (r : res A) : emits P (eval r).
Proof. intro s; destruct r; reflexivity. Qed.
Lemma emits_modify g : emits P (modify g).
Proof. intro; reflexivity. Qed.
Lemma emits_call r v : P (Called r v) = true -> emits P (call r v).
Proof. intros H s. destruct v; cbn; now rewrite H. Qed.
Lemma emits_when b m : emits P m -> emits P (when b m).
Proof. destruct b; cbn; auto. intros _ s; reflexivity. Qed.
Lemma emits_if (b : bool) (m1 m2 : script A) :
  emits P m1 -> emits P m2 -> emits P (if b then m1 else m2).
Proof. destruct b; auto. Qed.
End Rules.

Section StreamlitRules.
Context {X : Type}.
Variable f : session -> X.
Variable P : event -> bool.

Lemma keeps_st_progress v : keeps f (st_progress v).
Proof. unfold st_progress. auto using keeps_bind, keeps_eval, keeps_show. Qed.
Lemma keeps_st_metric label v : keeps f (st_metric label v).
Proof. unfold st_metric. auto using keeps_bind, keeps_eval, keeps_show. Qed.
Lemma keeps_st_download_button data name :
  keeps f (st_download_button data name).
Proof.
  unfold st_download_button. auto using keeps_bind, keeps_eval, keeps_show.
Qed.

Lemma emits_st_progress v :
  P (Shown (Progress v)) = true -> emits P (st_progress v).
Proof.
  intros H. unfold st_progress.
  apply emits_bind; [apply emits_eval|]. intros _. now apply emits_show.
Qed.
Lemma emits_st_metric label v :
  P (Shown (Metric label [Str v])) = true -> emits P (st_metric label v).
Proof.
  intros H. unfold st_metric.
  apply emits_bind; [apply emits_eval|]. intros _. now apply emits_show.
Qed.
Lemma emits_st_download_button data name :
  P (Shown (DownloadButton data name)) = true ->
  emits P (st_download_button data name).
Proof.
  intros H. unfold st_download_button.
  apply emits_bind; [apply emits_eval|]. intros _. now apply emits_show.
Qed.
End StreamlitRules.

Create HintDb frame.
#[local] Hint Resolve keeps_bind keeps_ret keeps_emit keeps_show keeps_read
  keeps_rerun keeps_sleep keeps_eval keeps_call keeps_when keeps_if
  keeps_modify keeps_st_progress keeps_st_metric keeps_st_download_button
  : frame.

Create HintDb trace.
#[local] Hint Resolve emits_bind emits_ret emits_emit emits_show emits_read
  emits_rerun emits_sleep emits_eval emits_modify emits_call emits_when
  emits_if emits_st_progress emits_st_metric emits_st_download_button : trace.

Ltac frame_rule := auto 60 with frame.
Ltac trace_rule := auto 60 with trace.

(** ** The sections, one by one *)

Lemma status_column_keeps {X} (f : session -> X) i :
  keeps f (status_column i).
Proof. unfold status_column, status_display, auto_refresh. frame_rule. Qed.

Lemma results_section_keeps {X} (f : session -> X) i :
  keeps f (results_section i).
Proof. unfold results_section, show_documentation, stats_tab. frame_rule. Qed.

Lemma status_column_keeps_session i : keeps (fun s => s) (status_column i).
Proof. apply status_column_keeps. Qed.

Lemma results_section_keeps_session i : keeps (fun s => s) (results_section i).
Proof. apply results_section_keeps. Qed.

Lemma sidebar_keeps_documentation i : keeps documentation (sidebar i).
Proof. unfold sidebar. frame_rule. Qed.

Lemma sidebar_keeps_task_id i : keeps task_id (sidebar i).
Proof. unfold sidebar. frame_rule. Qed.

Lemma input_column_keeps_documentation i : keeps documentation (input_column i).
Proof. unfold input_column, submit. frame_rule. Qed.

Lemma sidebar_displays i : emits is_display (sidebar i).
Proof. unfold sidebar. trace_rule. Qed.

Lemma input_column_emits i :
  emits (fun ev => is_display ev || is_analyze_call ev) (input_column i).
Proof. unfold input_column, submit. trace_rule. Qed.

Lemma status_column_emits i :
  emits (fun ev => is_display ev || is_poll ev || is_sleep ev) (status_column i).
Proof. unfold status_column, status_display, auto_refresh. trace_rule. Qed.

Lemma results_section_emits i :
  emits (fun ev => is_display ev || is_poll ev || is_download_call ev)
        (results_section i).
Proof. unfold results_section, show_documentation, stats_tab. trace_rule. Qed.

#[local] Hint Resolve sidebar_keeps_documentation input_column_keeps_documentation
  status_column_keeps results_section_keeps : frame.

Lemma render_keeps_documentation i : keeps documentation (render i).
Proof. unfold render. frame_rule. Qed.

Lemma sidebar_done i s : outcome_of (sidebar i s) = Done tt.
Proof.
  unfold sidebar.
  destruct (check_backend_health_returns (net i AtSidebar)) as [healthy E].
  cbn. rewrite E. cbn.
  destruct healthy; cbn;
    destruct (negb _); cbn; try destruct (clicked i BtnUseExample);
    reflexivity.
Qed.

(** The sidebar writes the session only through "Use This Example". *)
Lemma sidebar_without_click i s :
  clicked i BtnUseExample = false -> session_of (sidebar i s) = s.
Proof.
  intros Hclick. unfold sidebar.
  destruct (check_backend_health_returns (net i AtSidebar)) as [healthy E].
  cbn. rewrite E, Hclick. cbn.
  destruct healthy; cbn; destruct (negb _); reflexivity.
Qed.

(** A pass is its sections in order, up to the first one that halts. *)
Lemma render_sections i s :
  render i s =
  match sidebar i s with
  | (Done _, s1, t1) =>
      match input_column i s1 with
      | (Done _, s2, t2) =>
          match status_column i s2 with
          | (Done _, s3, t3) =>
              match results_section i s3 with
              | (Done _, s4, t4) =>
                  (Done tt, s4,
                   page_top ++ t1 ++ t2 ++ t3 ++ t4 ++ page_bottom)%list
              | (Halted h, s4, t4) =>
                  (Halted h, s4, page_top ++ t1 ++ t2 ++ t3 ++ t4)%list
              end
          | (Halted h, s3, t3) =>
              (Halted h, s3, page_top ++ t1 ++ t2 ++ t3)%list
          end
      | (Halted h, s2, t2) => (Halted h, s2, page_top ++ t1 ++ t2)%list
      end
  | (Halted h, s1, t1) => (Halted h, s1, page_top ++ t1)%list
  end.
Proof.
  unfold render, bind, show, emit, page_top, page_bottom.
  destruct (sidebar i s) as [[[[]|h] s1] t1]; [|reflexivity].
  destruct (input_column i s1) as [[[[]|h] s2] t2]; [|reflexivity].
  destruct (status_column i s2) as [[[[]|h] s3] t3]; [|reflexivity].
  destruct (results_section i s3) as [[[[]|h] s4] t4]; [|reflexivity].
  cbn. rewrite ?app_nil_r. reflexivity.
Qed.

#[local] Arguments sidebar : simpl never.
#[local] Arguments input_column : simpl never.
#[local] Arguments status_column : simpl never.
#[local] Arguments results_section : simpl never.

Lemma sidebar_result i s :
  exists t1, sidebar i s = (Done tt, session_of (sidebar i s), t1)
             /\ forallb is_display t1 = true.
Proof.
  pose proof (sidebar_done i s) as Hdone.
  pose proof (sidebar_displays i s) as Hshow.
  destruct (sidebar i s) as [[o s1] t1]. cbn in *. subst o. eauto.
Qed.

(** ** Session frame *)

(** C9. The session field [documentation] is [None] after the
    initialisation of a fresh session state (a value already there is
    kept) and still [None] after the first run of the script; no run of
    the script writes it: submission, polling and download leave it as it
    was, pass after pass, so the downloaded document never reaches the
    session. *)
Theorem documentation_never_written :
  documentation (init_session fresh_session_state) = None
  /\ (forall a b v c,
        documentation (init_session (SessionState a b (Some v) c)) = v)
  /\ (forall i, documentation (session_of (run_script i fresh_session_state))
                = None)
  /\ (forall i s, documentation (session_of (render i s)) = documentation s)
  /\ (forall passes s, documentation (run_passes passes s) = documentation s).
Proof.
  repeat split.
  - intros i. unfold run_script. now rewrite render_keeps_documentation.
  - apply render_keeps_documentation.
  - intros passes. induction passes as [|i rest IH]; intros s; [reflexivity|].
    cbn [run_passes].
    pose proof (render_keeps_documentation i s) as Hdoc.
    unfold session_of in Hdoc.
    destruct (render i s) as [[o s'] tr]. cbn in Hdoc.
    now rewrite IH.
Qed.

(** ** The analyze button *)

Lemma input_column_rejects i s :
  clicked i BtnAnalyze = true ->
  invalid_url (text_input i (repo_url s)) = true ->
  input_column i s
  = (Done tt, s,
     [ Shown (Header "Generate Documentation");
       Shown (TextInput "GitHub Repository URL" (repo_url s));
       Shown (Button BtnAnalyze);
       Shown (Error [Lit (validation_message (text_input i (repo_url s)))]) ]).
Proof.
  unfold invalid_url, validation_message, input_column, submit.
  intros Hclick Hbad. cbn. rewrite Hclick. cbn.
  destruct (is_empty (text_input i (repo_url s))); cbn; [reflexivity|].
  cbn in Hbad. now rewrite Hbad.
Qed.

Lemma input_column_reports_error i s fields message :
  clicked i BtnAnalyze = true ->
  invalid_url (text_input i (repo_url s)) = false ->
  analyze_repository (net i AtSubmit) (text_input i (repo_url s))
  = Ok (JObj fields) ->
  Py.lookup "error" fields = Some message ->
  input_column i s
  = (Done tt, s,
     [ Shown (Header "Generate Documentation");
       Shown (TextInput "GitHub Repository URL" (repo_url s));
       Shown (Button BtnAnalyze);
       Shown (Spinner "Starting analysis...");
       Called (PostAnalyze (text_input i (repo_url s))) (Ok (JObj fields));
       Shown (Error [Lit "Error: "; Str message]) ]).
Proof.
  unfold invalid_url, input_column, submit.
  intros Hclick Hvalid Hresult Herror.
  apply orb_false_elim in Hvalid as [Hempty Hprefix].
  cbn. rewrite Hclick. cbn. rewrite Hempty, Hprefix. cbn.
  rewrite Hresult. cbn.
  unfold Py.contains, Py.subscript. rewrite Herror. reflexivity.
Qed.

Lemma input_column_accepts i s fields :
  clicked i BtnAnalyze = true ->
  invalid_url (text_input i (repo_url s)) = false ->
  analyze_repository (net i AtSubmit) (text_input i (repo_url s))
  = Ok (JObj fields) ->
  Py.lookup "error" fields = None ->
  let new_id :=
    match Py.lookup "task_id" fields with Some v => v | None => JNull end in
  input_column i s
  = (Halted Rerun,
     {| task_id := new_id; status := Some "processing";
        documentation := documentation s;
        repo_url := text_input i (repo_url s) |},
     [ Shown (Header "Generate Documentation");
       Shown (TextInput "GitHub Repository URL" (repo_url s));
       Shown (Button BtnAnalyze);
       Shown (Spinner "Starting analysis...");
       Called (PostAnalyze (text_input i (repo_url s))) (Ok (JObj fields));
       Shown (Success [Lit "Analysis started! Task ID: "; Str new_id]) ]).
Proof.
  unfold invalid_url, input_column, submit.
  intros Hclick Hvalid Hresult Herror.
  apply orb_false_elim in Hvalid as [Hempty Hprefix].
  cbn. rewrite Hclick. cbn. rewrite Hempty, Hprefix. cbn.
  rewrite Hresult. cbn.
  unfold Py.contains, Py.get. rewrite Herror. reflexivity.
Qed.

(** A pass that halts in the input column consists of the page top, the
    sidebar and that column. *)
Lemma render_until_input i s o s2 t2 :
  input_column i (session_of (sidebar i s)) = (o, s2, t2) ->
  exists t1 rest,
    forallb is_display t1 = true
    /\ forallb (fun ev => is_display ev || is_poll ev || is_sleep ev
                          || is_download_call ev) rest = true
    /\ trace_of (render i s) = (page_top ++ t1 ++ t2 ++ rest)%list
    /\ (forall h, o = Halted h ->
          render i s = (Halted h, s2, page_top ++ t1 ++ t2)%list)
    /\ (o = Done tt -> session_of (render i s) = s2).
Proof.
  intros Hinput.
  destruct (sidebar_result i s) as (t1 & Hside & Ht1).
  rewrite render_sections, Hside, Hinput.
  exists t1.
  destruct o as [[]|h].
  - pose proof (status_column_keeps_session i s2) as Hk3.
    pose proof (status_column_emits i s2) as He3.
    unfold session_of, trace_of in Hk3, He3.
    destruct (status_column i s2) as [[o3 s3] t3]. cbn in Hk3, He3. subst s3.
    pose proof (results_section_keeps_session i s2) as Hk4.
    pose proof (results_section_emits i s2) as He4.
    unfold session_of, trace_of in Hk4, He4.
    destruct (results_section i s2) as [[o4 s4] t4]. cbn in Hk4, He4. subst s4.
    assert (Hrest3 : forallb (fun ev => is_display ev || is_poll ev || is_sleep ev
                                        || is_download_call ev) t3 = true).
    { revert He3. apply forallb_weaken. intros ev H. now rewrite H. }
    assert (Hrest4 : forallb (fun ev => is_display ev || is_poll ev || is_sleep ev
                                        || is_download_call ev) t4 = true).
    { revert He4. apply forallb_weaken. intros ev H.
      destruct (is_display ev), (is_poll ev), (is_sleep ev); auto. }
    destruct o3 as [[]|h3]; [destruct o4 as [[]|h4]|].
    + exists (t3 ++ t4 ++ page_bottom)%list. repeat split; auto; try discriminate.
      now rewrite !forallb_app, Hrest3, Hrest4.
    + exists (t3 ++ t4)%list. repeat split; auto; try discriminate.
      now rewrite !forallb_app, Hrest3, Hrest4.
    + exists t3. repeat split; auto; try discriminate.
  - exists []. repeat split; auto; try discriminate.
    + cbn. now rewrite app_nil_r.
    + intros h' [= <-]. reflexivity.
Qed.

(** C1. When the analyze button is pressed on a URL that is empty or does
    not start with ["https://github.com/"], the pass never calls
    [analyze_repository]; the button's column shows the validation error
    and nothing else, and leaves the session alone. *)
Theorem invalid_url_never_submitted i s :
  clicked i BtnAnalyze = true ->
  invalid_url (entered_url i s) = true ->
  analyze_calls (trace_of (render i s)) = 0%nat
  /\ In (Shown (Error [Lit (validation_message (entered_url i s))]))
        (trace_of (render i s))
  /\ input_column i (session_of (sidebar i s))
     = (Done tt, session_of (sidebar i s),
        [ Shown (Header "Generate Documentation");
          Shown (TextInput "GitHub Repository URL"
                   (repo_url (session_of (sidebar i s))));
          Shown (Button BtnAnalyze);
          Shown (Error [Lit (validation_message (entered_url i s))]) ]).
Proof.
  intros Hclick Hbad. unfold entered_url in *.
  pose proof (input_column_rejects i _ Hclick Hbad) as Hinput.
  destruct (render_until_input i s _ _ _ Hinput)
    as (t1 & rest & Ht1 & Hrest & Htrace & _).
  rewrite Htrace. repeat split; [| |exact Hinput].
  - rewrite !analyze_calls_app.
    destruct (display_only t1 Ht1) as (_ & _ & -> & _).
    assert (Hnone : analyze_calls rest = 0%nat).
    { clear - Hrest. unfold analyze_calls.
      induction rest as [|ev rest IH]; [reflexivity|].
      cbn [forallb] in Hrest. apply andb_prop in Hrest as [Hev Hrest].
      destruct ev as [[] ?| |]; try discriminate; cbn; auto. }
    rewrite Hnone. reflexivity.
  - apply in_or_app. right. apply in_or_app. right.
    apply in_or_app. left. cbn. auto.
Qed.

Lemma invalid_url_never_submitted_witness :
  analyze_calls
    (trace_of (render (sample_inputs (backend_reporting "processing")
                         (Some BtnAnalyze) "not-a-url" "20260101_120000")
                      idle_session)) = 0%nat
  /\ In (Shown (Error [Lit "Please enter a valid GitHub URL"]))
        (trace_of (render (sample_inputs (backend_reporting "processing")
                             (Some BtnAnalyze) "not-a-url" "20260101_120000")
                          idle_session)).
Proof.
  pose proof (invalid_url_never_submitted
                (sample_inputs (backend_reporting "processing")
                   (Some BtnAnalyze) "not-a-url" "20260101_120000")
                idle_session eq_refl eq_refl) as (Hcalls & Hshown & _).
  split; [exact Hcalls | exact Hshown].
Defined.

(** C5. When the submission comes back as a dict with an ["error"] key, the
    analyze button's column shows the spinner, calls [analyze_repository]
    once and shows the error message; the session is the one the handler
    found, at the end of the column and at the end of the pass: [task_id],
    [status], [repo_url] and [documentation] are unchanged. *)
Theorem failed_submission_keeps_session i s fields message :
  clicked i BtnAnalyze = true ->
  invalid_url (entered_url i s) = false ->
  analyze_repository (net i AtSubmit) (entered_url i s) = Ok (JObj fields) ->
  Py.lookup "error" fields = Some message ->
  input_column i (session_of (sidebar i s))
  = (Done tt, session_of (sidebar i s),
     [ Shown (Header "Generate Documentation");
       Shown (TextInput "GitHub Repository URL"
                (repo_url (session_of (sidebar i s))));
       Shown (Button BtnAnalyze);
       Shown (Spinner "Starting analysis...");
       Called (PostAnalyze (entered_url i s)) (Ok (JObj fields));
       Shown (Error [Lit "Error: "; Str message]) ])
  /\ session_of (render i s) = session_of (sidebar i s)
  /\ (clicked i BtnUseExample = false -> session_of (render i s) = s).
Proof.
  intros Hclick Hvalid Hresult Herror. unfold entered_url in *.
  pose proof (input_column_reports_error i _ fields message
                Hclick Hvalid Hresult Herror) as Hinput.
  destruct (render_until_input i s _ _ _ Hinput)
    as (t1 & rest & _ & _ & _ & _ & Hsession).
  specialize (Hsession eq_refl).
  repeat split; auto.
  intros Hnone. rewrite Hsession. now apply sidebar_without_click.
Qed.

Lemma failed_submission_keeps_session_witness :
  session_of (render (sample_inputs backend_unavailable (Some BtnAnalyze)
                        "https://github.com/acme/widgets" "20260101_120000")
                     busy_session)
  = busy_session.
Proof.
  refine (proj2 (proj2 (failed_submission_keeps_session
            (sample_inputs backend_unavailable (Some BtnAnalyze)
               "https://github.com/acme/widgets" "20260101_120000")
            busy_session
            [("error", JStr "Failed with status code: 503")]
            (JStr "Failed with status code: 503")
            eq_refl eq_refl eq_refl eq_refl)) eq_refl).
Defined.

(** C10. When the submission comes back as a dict without an ["error"] key,
    the pass ends in [st.rerun()] with [status] set to ["processing"],
    [repo_url] set to the submitted URL and [task_id] set to the dict's
    ["task_id"], which is [None] when the dict has no such key;
    [documentation] is not touched. *)
Theorem accepted_submission_updates_session i s fields :
  clicked i BtnAnalyze = true ->
  invalid_url (entered_url i s) = false ->
  analyze_repository (net i AtSubmit) (entered_url i s) = Ok (JObj fields) ->
  Py.lookup "error" fields = None ->
  outcome_of (render i s) = Halted Rerun
  /\ session_of (render i s)
     = {| task_id := match Py.lookup "task_id" fields with
                     | Some v => v
                     | None => JNull
                     end;
          status := Some "processing";
          documentation := documentation s;
          repo_url := entered_url i s |}
  /\ (Py.lookup "task_id" fields = None ->
      task_id (session_of (render i s)) = JNull
      /\ status (session_of (render i s)) = Some "processing").
Proof.
  intros Hclick Hvalid Hresult Herror. unfold entered_url in *.
  pose proof (input_column_accepts i _ fields
                Hclick Hvalid Hresult Herror) as Hinput.
  cbv zeta in Hinput.
  destruct (render_until_input i s _ _ _ Hinput)
    as (t1 & rest & _ & _ & _ & Hhalt & _).
  rewrite (Hhalt Rerun eq_refl). cbn.
  rewrite (sidebar_keeps_documentation i s).
  split; [reflexivity|]. split; [reflexivity|].
  intros ->. split; reflexivity.
Qed.

Lemma accepted_submission_updates_session_witness :
  session_of (render (sample_inputs backend_without_task_id (Some BtnAnalyze)
                        "https://github.com/acme/widgets" "20260101_120000")
                     idle_session)
  = {| task_id := JNull; status := Some "processing";
       documentation := None;
       repo_url := "https://github.com/acme/widgets" |}.
Proof.
  refine (proj1 (proj2 (accepted_submission_updates_session
            (sample_inputs backend_without_task_id (Some BtnAnalyze)
               "https://github.com/acme/widgets" "20260101_120000")
            idle_session [("message", JStr "queued")]
            eq_refl eq_refl eq_refl eq_refl))).
Defined.

(** ** The status panel and the results section *)

Ltac split_match :=
  match goal with
  | |- context [match ?x with _ => _ end] =>
      lazymatch x with
      | context [match _ with _ => _ end] => fail
      | _ => destruct x eqn:?
      end
  end.

Ltac run :=
  repeat first
    [ progress cbn
    | progress unfold st_progress, st_metric, st_download_button
    | progress unfold bind, eval, call, when, show, emit, ret, read, rerun,
                      sleep, modify
    | split_match ].

Lemma progress_field_defined d k default v k' default' :
  progress_field d k default = Ok v ->
  exists v', progress_field d k' default' = Ok v'.
Proof.
  unfold progress_field, res_bind, Py.get.
  destruct d; try discriminate.
  destruct (Py.lookup "progress" fields) as [[]|]; try discriminate; eauto.
Qed.

Lemma not_terminal_false st :
  not_terminal st = false ->
  Py.eq_str st "completed" = true
  \/ (Py.eq_str st "completed" = false /\ Py.eq_str st "error" = true).
Proof.
  unfold not_terminal.
  destruct (Py.eq_str st "completed"), (Py.eq_str st "error");
    cbn; intros; try discriminate; auto.
Qed.

Lemma eq_str_true v k : Py.eq_str v k = true <-> v = JStr k.
Proof.
  unfold Py.eq_str, Py.is_str. split.
  - destruct v; try discriminate. intros H. apply String.eqb_eq in H. congruence.
  - intros ->. apply String.eqb_refl.
Qed.

Lemma status_column_idle i s :
  Py.truthy (task_id s) = false -> status_column i s = (Done tt, s, []).
Proof. intros H. unfold status_column. cbn. now rewrite H. Qed.

Lemma results_section_idle i s :
  Py.truthy (task_id s) = false -> results_section i s = (Done tt, s, []).
Proof. intros H. unfold results_section. cbn. now rewrite H. Qed.

Lemma status_column_polls i s :
  Py.truthy (task_id s) = true ->
  polls (trace_of (status_column i s))
  = [check_task_status (net i AtStatusPanel) (task_id s)].
Proof.
  intros Htid.
  destruct (check_task_status_returns (net i AtStatusPanel) (task_id s))
    as [d Hd].
  unfold status_column, status_display, auto_refresh.
  cbn. rewrite Htid. cbn. rewrite Hd. run; reflexivity.
Qed.

Lemma status_column_terminal i s d st :
  Py.truthy (task_id s) = true ->
  check_task_status (net i AtStatusPanel) (task_id s) = Ok d ->
  current_status_of d = Ok st ->
  not_terminal st = false ->
  status_column i s
  = (Done tt, s,
     Shown (Header "Status")
     :: Called (GetStatus (task_id s)) (Ok d)
     :: (if Py.eq_str st "completed"
         then [Shown (Success [Lit "Completed!"]); Shown (Progress (Percent 100))]
         else [Shown (Error [Lit "Error occurred"]); Shown (Progress (Percent 0))])).
Proof.
  intros Htid Hd Hst Hterm.
  destruct (progress_field_defined _ _ _ _ "progress_percentage" (JNum 0) Hst)
    as [pct Hpct].
  destruct (progress_field_defined _ _ _ _ "current_step" (JStr EmptyString) Hst)
    as [step Hstep].
  unfold status_column, status_display, auto_refresh.
  cbn. rewrite Htid. cbn. rewrite Hd. cbn. rewrite Hst. cbn.
  rewrite Hpct. cbn. rewrite Hstep. cbn. rewrite Hterm.
  destruct (not_terminal_false st Hterm) as [Hc|[Hc He]];
    rewrite Hc; cbn; [|rewrite He; cbn]; reflexivity.
Qed.

Lemma progress_accepts_number pct :
  progress_accepts (Ratio pct) = true -> Py.is_number pct = true.
Proof. destruct pct; cbn; auto; discriminate. Qed.

Lemma status_column_refreshes i s d st :
  Py.truthy (task_id s) = true ->
  check_task_status (net i AtStatusPanel) (task_id s) = Ok d ->
  current_status_of d = Ok st ->
  not_terminal st = true ->
  (Py.eq_str st "processing" = true -> progress_in_range d = true) ->
  exists pct step,
    progress_field d "progress_percentage" (JNum 0) = Ok pct
    /\ progress_field d "current_step" (JStr EmptyString) = Ok step
    /\ status_column i s
       = (Halted Rerun, s,
          Shown (Header "Status")
          :: Called (GetStatus (task_id s)) (Ok d)
          :: (if Py.eq_str st "processing"
              then [Shown (Info [Lit "Processing: "; Str step]);
                    Shown (Progress (Ratio pct))]
              else [Shown (Warning [Lit "Status: "; Str st]);
                    Shown (Progress (Percent 0))])
          ++ Shown (Button BtnRefresh)
          :: (if clicked i BtnRefresh then [] else [Slept 3]))%list.
Proof.
  intros Htid Hd Hst Hterm Hrange. unfold progress_in_range in Hrange.
  destruct (progress_field_defined _ _ _ _ "progress_percentage" (JNum 0) Hst)
    as [pct Hpct].
  destruct (progress_field_defined _ _ _ _ "current_step" (JStr EmptyString) Hst)
    as [step Hstep].
  rewrite Hpct in Hrange.
  exists pct, step. split; [exact Hpct|]. split; [exact Hstep|].
  unfold status_column, status_display, auto_refresh.
  cbn. rewrite Htid. cbn. rewrite Hd. cbn. rewrite Hst. cbn.
  rewrite Hpct. cbn. rewrite Hstep. cbn. rewrite Hterm.
  unfold not_terminal in Hterm. apply negb_true_iff, orb_false_elim in Hterm.
  destruct Hterm as [Hc He]. rewrite Hc, He. cbn.
  destruct (Py.eq_str st "processing"); cbn.
  - specialize (Hrange eq_refl).
    unfold divide_by_100. rewrite (progress_accepts_number pct Hrange). cbn.
    destruct pct; try discriminate Hrange; cbn in Hrange;
      unfold bind, eval, show, emit, st_progress; cbn;
      rewrite ?Hrange; destruct (clicked i BtnRefresh); reflexivity.
  - destruct (clicked i BtnRefresh); reflexivity.
Qed.

Lemma results_section_polls i s :
  Py.truthy (task_id s) = true ->
  polls (trace_of (results_section i s))
  = [check_task_status (net i AtResults) (task_id s)].
Proof.
  intros Htid.
  destruct (check_task_status_returns (net i AtResults) (task_id s)) as [d Hd].
  destruct (download_documentation_returns (net i AtDownload) (task_id s))
    as [doc Hdoc].
  unfold results_section, show_documentation, stats_tab.
  cbn. rewrite Htid. cbn. rewrite Hd. cbn.
  destruct (current_status_of d); cbn; [|reflexivity].
  destruct (Py.eq_str a "completed"); cbn.
  - rewrite Hdoc. run; reflexivity.
  - run; reflexivity.
Qed.

Lemma results_section_downloads i s d st :
  Py.truthy (task_id s) = true ->
  check_task_status (net i AtResults) (task_id s) = Ok d ->
  current_status_of d = Ok st ->
  downloads (trace_of (results_section i s))
  = if Py.eq_str st "completed" then 1%nat else 0%nat.
Proof.
  intros Htid Hd Hst.
  destruct (download_documentation_returns (net i AtDownload) (task_id s))
    as [doc Hdoc].
  unfold results_section, show_documentation, stats_tab.
  cbn. rewrite Htid. cbn. rewrite Hd. cbn. rewrite Hst. cbn.
  destruct (Py.eq_str st "completed"); cbn.
  - rewrite Hdoc. run; reflexivity.
  - run; reflexivity.
Qed.

Lemma results_section_error i s d :
  Py.truthy (task_id s) = true ->
  check_task_status (net i AtResults) (task_id s) = Ok d ->
  current_status_of d = Ok (JStr "error") ->
  results_section i s
  = (Done tt, s,
     [ Shown Divider;
       Shown (Header "Documentation");
       Called (GetStatus (task_id s)) (Ok d);
       Shown (Error [Lit "An error occurred during analysis. Please try again."]) ]).
Proof.
  intros Htid Hd Hst.
  unfold results_section.
  cbn. rewrite Htid. cbn. rewrite Hd. cbn. rewrite Hst. reflexivity.
Qed.

Lemma input_column_done i s s2 t2 :
  input_column i s = (Done tt, s2, t2) -> s2 = s.
Proof.
  destruct (analyze_repository_returns (net i AtSubmit)
              (text_input i (repo_url s))) as [result Hresult].
  unfold input_column, submit. cbn.
  destruct (clicked i BtnAnalyze); cbn; [|congruence].
  destruct (is_empty _); cbn; [congruence|].
  destruct (negb _); cbn; [congruence|].
  rewrite Hresult. run; congruence.
Qed.

Lemma filter_none {A} (P Q : A -> bool) l :
  (forall x, P x = true -> Q x = false) ->
  forallb P l = true -> filter Q l = [].
Proof.
  intros HPQ. induction l as [|x l IH]; [reflexivity|].
  cbn. intros H. apply andb_prop in H as [Hx Hl].
  now rewrite (HPQ x Hx), IH.
Qed.

Lemma polls_none (P : event -> bool) tr :
  (forall ev, P ev = true -> is_poll ev = false) ->
  forallb P tr = true -> polls tr = [].
Proof.
  intros HP. induction tr as [|ev tr IH]; [reflexivity|].
  cbn [forallb]. intros H. apply andb_prop in H as [Hev Htr].
  specialize (HP ev Hev).
  destruct ev as [[] ?| |]; cbn in *; auto; discriminate.
Qed.

Ltac by_event := intros [[] ?| |]; cbn; congruence.

Lemma input_column_quiet i s :
  polls (trace_of (input_column i s)) = []
  /\ downloads (trace_of (input_column i s)) = 0%nat
  /\ sleeps (trace_of (input_column i s)) = [].
Proof.
  pose proof (input_column_emits i s) as H.
  split; [|split].
  - revert H. apply polls_none. by_event.
  - unfold downloads. erewrite filter_none; [reflexivity| |exact H]. by_event.
  - unfold sleeps. erewrite filter_none; [reflexivity| |exact H]. by_event.
Qed.

Lemma status_column_quiet i s :
  downloads (trace_of (status_column i s)) = 0%nat
  /\ analyze_calls (trace_of (status_column i s)) = 0%nat.
Proof.
  pose proof (status_column_emits i s) as H.
  split.
  - unfold downloads. erewrite filter_none; [reflexivity| |exact H]. by_event.
  - unfold analyze_calls. erewrite filter_none; [reflexivity| |exact H]. by_event.
Qed.

Lemma results_section_quiet i s :
  sleeps (trace_of (results_section i s)) = []
  /\ analyze_calls (trace_of (results_section i s)) = 0%nat.
Proof.
  pose proof (results_section_emits i s) as H.
  split.
  - unfold sleeps. erewrite filter_none; [reflexivity| |exact H]. by_event.
  - unfold analyze_calls. erewrite filter_none; [reflexivity| |exact H]. by_event.
Qed.

Lemma render_shape i s : pass_shape i s.
Proof.
  destruct (sidebar_result i s) as (t1 & Hside & Ht1).
  destruct (display_only t1 Ht1) as (Hp1 & Hd1 & _ & Hs1).
  pose proof (sidebar_keeps_task_id i s) as Htask.
  set (s1 := session_of (sidebar i s)) in *.
  destruct (input_column_quiet i s1) as (Hp2 & Hd2 & Hs2).
  pose proof (render_sections i s) as Hrender. rewrite Hside in Hrender.
  destruct (input_column i s1) as [[o2 s2] t2] eqn:Hinput.
  unfold trace_of in Hp2, Hd2, Hs2. cbn [snd] in Hp2, Hd2, Hs2.
  assert (Hbefore : polls (page_top ++ t1 ++ t2) = []
                    /\ downloads (page_top ++ t1 ++ t2) = 0%nat
                    /\ sleeps (page_top ++ t1 ++ t2) = []).
  { rewrite !polls_app, !downloads_app, !sleeps_app, Hp1, Hp2, Hd1, Hd2, Hs1, Hs2.
    repeat split. }
  destruct Hbefore as (Hp & Hd & Hs).
  destruct o2 as [[]|h2].
  2:{ apply (HaltsInInput i s (page_top ++ t1 ++ t2)%list h2); auto.
      - fold s1. now rewrite Hinput.
      - now rewrite Hrender. }
  apply input_column_done in Hinput as Hs2'. subst s2.
  destruct (Py.truthy (task_id s1)) eqn:Htid.
  2:{ rewrite (status_column_idle i s1 Htid), (results_section_idle i s1 Htid)
        in Hrender.
      apply (WithoutTask i s
               (page_top ++ t1 ++ t2 ++ [] ++ [] ++ page_bottom)%list).
      - now rewrite <- Htask.
      - now rewrite !polls_app, Hp1, Hp2.
      - now rewrite !downloads_app, Hd1, Hd2.
      - now rewrite !sleeps_app, Hs1, Hs2.
      - now rewrite Hrender. }
  pose proof (status_column_keeps_session i s1) as Hk3. unfold session_of in Hk3.
  destruct (status_column i s1) as [[o3 s3] t3] eqn:Hstatus.
  cbn in Hk3. subst s3.
  destruct o3 as [[]|h3].
  2:{ apply (StopsInStatus i s (page_top ++ t1 ++ t2)%list t3 h3 s1); auto.
      rewrite Hrender. now rewrite !app_assoc. }
  pose proof (results_section_keeps_session i s1) as Hk4. unfold session_of in Hk4.
  destruct (results_section i s1) as [[o4 s4] t4] eqn:Hresults.
  cbn in Hk4. subst s4.
  apply (ReachesResults i s (page_top ++ t1 ++ t2)%list t3 t4 o4 s1); auto.
  rewrite Hrender. destruct o4 as [[]|h4].
  - now rewrite <- !app_assoc.
  - now rewrite app_nil_r, <- !app_assoc.
Qed.

Lemma status_column_done_no_sleep i s t3 :
  status_column i s = (Done tt, s, t3) -> sleeps t3 = [].
Proof.
  destruct (check_task_status_returns (net i AtStatusPanel) (task_id s))
    as [d Hd].
  unfold status_column, status_display, auto_refresh. cbn.
  destruct (Py.truthy (task_id s)); cbn; [|intros [= <-]; reflexivity].
  rewrite Hd. run; intros [= <-]; reflexivity.
Qed.

(** ** Terminal statuses *)

(** X21. With the status read as the panel reads it, from
    [progress.status]: in a render pass whose latest poll result reads
    ["completed"], [download_documentation] is called exactly once.  In a
    pass whose latest poll result reads ["error"], nothing but the error
    message and the page footer follows that poll: the pass runs to its end
    with no download, no wait and no rerun. *)
Theorem terminal_poll_effects i s d :
  latest_poll (trace_of (render i s)) = Some (Ok d) ->
  (current_status_of d = Ok (JStr "completed") ->
   downloads (trace_of (render i s)) = 1%nat)
  /\ (current_status_of d = Ok (JStr "error") ->
      outcome_of (render i s) = Done tt
      /\ downloads (trace_of (render i s)) = 0%nat
      /\ sleeps (trace_of (render i s)) = []
      /\ exists before,
           trace_of (render i s)
           = (before
              ++ [ Called (GetStatus (task_id s)) (Ok d);
                   Shown (Error [Lit "An error occurred during analysis. Please try again."]);
                   Shown Divider;
                   Shown (Html Footer) ])%list).
Proof.
  intros Hlatest.
  destruct (render_shape i s)
    as [before h Hhalt Hp Hd Hs Htr
       | before Hnotask Hp Hd Hs Htr
       | before t3 h s1 Hp Hd Hs Htid Htask H3 Hr
       | before t3 t4 o4 s1 Hp Hd Hs Htid Htask H3 H4 Hr].
  - rewrite Htr in Hlatest. unfold latest_poll in Hlatest.
    rewrite Hp in Hlatest. discriminate.
  - rewrite Htr in Hlatest. unfold latest_poll in Hlatest.
    rewrite Hp in Hlatest. discriminate.
  - pose proof (status_column_polls i s1 Htid) as Hp3.
    rewrite H3 in Hp3. unfold trace_of in Hp3. cbn [snd] in Hp3.
    rewrite Hr in Hlatest. unfold trace_of, latest_poll in Hlatest.
    cbn [snd] in Hlatest. rewrite polls_app, Hp, Hp3 in Hlatest.
    cbn in Hlatest. injection Hlatest as Hd1.
    assert (Hterm : forall st, current_status_of d = Ok st ->
                               not_terminal st = false -> False).
    { intros st Hst Hnt.
      rewrite (status_column_terminal i s1 d st Htid Hd1 Hst Hnt) in H3.
      discriminate. }
    split; intros Hst; exfalso; apply (Hterm _ Hst); reflexivity.
  - pose proof (status_column_polls i s1 Htid) as Hp3.
    rewrite H3 in Hp3. unfold trace_of in Hp3. cbn [snd] in Hp3.
    pose proof (results_section_polls i s1 Htid) as Hp4.
    rewrite H4 in Hp4. unfold trace_of in Hp4. cbn [snd] in Hp4.
    destruct (status_column_quiet i s1) as [Hd3 _].
    rewrite H3 in Hd3. unfold trace_of in Hd3. cbn [snd] in Hd3.
    pose proof (status_column_done_no_sleep i s1 t3 H3) as Hs3.
    assert (Hbottom : forall o : outcome unit,
              polls (match o with Done _ => page_bottom | Halted _ => [] end) = []
              /\ downloads (match o with Done _ => page_bottom | Halted _ => [] end)
                 = 0%nat).
    { intros [[]|]; split; reflexivity. }
    destruct (Hbottom o4) as [Hp5 Hd5].
    rewrite Hr in *. unfold trace_of, outcome_of, latest_poll in *.
    cbn [fst snd] in *.
    rewrite !polls_app, Hp, Hp3, Hp4, Hp5 in Hlatest. cbn in Hlatest.
    injection Hlatest as Hd2.
    split; intros Hst.
    + pose proof (results_section_downloads i s1 d _ Htid Hd2 Hst) as Hd4.
      rewrite H4 in Hd4. unfold trace_of in Hd4. cbn [snd] in Hd4.
      rewrite !downloads_app, Hd, Hd3, Hd4, Hd5. reflexivity.
    + pose proof (results_section_downloads i s1 d _ Htid Hd2 Hst) as Hd4.
      rewrite H4 in Hd4. unfold trace_of in Hd4. cbn [snd] in Hd4.
      rewrite (results_section_error i s1 d Htid Hd2 Hst) in H4.
      injection H4 as <- <-.
      repeat split.
      * rewrite !downloads_app, Hd, Hd3. reflexivity.
      * rewrite !sleeps_app, Hs, Hs3. reflexivity.
      * exists (before ++ t3 ++ [Shown Divider; Shown (Header "Documentation")])%list.
        rewrite <- Htask, <- !app_assoc. reflexivity.
Qed.

Lemma terminal_poll_effects_witness :
  downloads (trace_of (render (sample_inputs (backend_reporting "completed")
                                 None "https://github.com/acme/widgets"
                                 "20260101_120000")
                              busy_session)) = 1%nat
  /\ outcome_of (render (sample_inputs (backend_reporting "error")
                           None "https://github.com/acme/widgets"
                           "20260101_120000")
                        busy_session) = Done tt.
Proof.
  split.
  - apply (proj1 (terminal_poll_effects
                    (sample_inputs (backend_reporting "completed") None
                       "https://github.com/acme/widgets" "20260101_120000")
                    busy_session (status_record "completed" 40 "parsing")
                    eq_refl)).
    reflexivity.
  - apply (proj2 (terminal_poll_effects
                    (sample_inputs (backend_reporting "error") None
                       "https://github.com/acme/widgets" "20260101_120000")
                    busy_session (status_record "error" 40 "parsing")
                    eq_refl)).
    reflexivity.
Defined.

(** ** The auto-refresh loop *)

Lemma results_section_no_rerun i s :
  outcome_of (results_section i s) <> Halted Rerun.
Proof.
  destruct (check_task_status_returns (net i AtResults) (task_id s)) as [d Hd].
  destruct (download_documentation_returns (net i AtDownload) (task_id s))
    as [doc Hdoc].
  unfold results_section, show_documentation, stats_tab. cbn.
  destruct (Py.truthy (task_id s)); cbn; [|discriminate].
  rewrite Hd. cbn.
  destruct (current_status_of d); cbn; [|discriminate].
  destruct (Py.eq_str a "completed"); cbn.
  - rewrite Hdoc. run; discriminate.
  - run; discriminate.
Qed.

Lemma input_column_not_clicked i s :
  clicked i BtnAnalyze = false ->
  input_column i s
  = (Done tt, s,
     [ Shown (Header "Generate Documentation");
       Shown (TextInput "GitHub Repository URL" (repo_url s));
       Shown (Button BtnAnalyze) ]).
Proof. intros H. unfold input_column. cbn. now rewrite H. Qed.

(** A pass in which the analyze button is not pressed, on a session with a
    task, polls the status of that task first. *)
Lemma render_polls_first i s :
  clicked i BtnAnalyze = false ->
  Py.truthy (task_id s) = true ->
  hd_error (polls (trace_of (render i s)))
  = Some (check_task_status (net i AtStatusPanel) (task_id s)).
Proof.
  intros Hclick Htid.
  destruct (render_shape i s)
    as [before h Hhalt Hp Hd Hs Htr
       | before Hnotask Hp Hd Hs Htr
       | before t3 h s1 Hp Hd Hs Htid1 Htask H3 Hr
       | before t3 t4 o4 s1 Hp Hd Hs Htid1 Htask H3 H4 Hr].
  - rewrite (input_column_not_clicked i _ Hclick) in Hhalt. discriminate.
  - congruence.
  - rewrite Hr. unfold trace_of. cbn [snd].
    pose proof (status_column_polls i s1 Htid1) as Hp3.
    rewrite H3 in Hp3. unfold trace_of in Hp3. cbn [snd] in Hp3.
    rewrite polls_app, Hp, Hp3, Htask. reflexivity.
  - rewrite Hr. unfold trace_of. cbn [snd].
    pose proof (status_column_polls i s1 Htid1) as Hp3.
    rewrite H3 in Hp3. unfold trace_of in Hp3. cbn [snd] in Hp3.
    rewrite !polls_app, Hp, Hp3, Htask. reflexivity.
Qed.

(** C6, as stated, fails: with a poll result of status ["processing"] and
    the "Refresh Status" button pressed, the pass reruns at once, without
    the 3 second wait. *)
Lemma refresh_click_skips_the_wait :
  ~ (forall i s d st,
       hd_error (polls (trace_of (render i s))) = Some (Ok d) ->
       current_status_of d = Ok st ->
       not_terminal st = true ->
       sleeps (trace_of (render i s)) = [Slept 3]
       /\ outcome_of (render i s) = Halted Rerun).
Proof.
  intros Hclaim.
  destruct (Hclaim
              (sample_inputs (backend_reporting "processing") (Some BtnRefresh)
                 "https://github.com/acme/widgets" "20260101_120000")
              busy_session
              (status_record "processing" 40 "parsing")
              (JStr "processing")
              eq_refl eq_refl eq_refl) as [Hsleep _].
  vm_compute in Hsleep. discriminate.
Qed.

(** C6, amended.  Take the poll result of the status panel, a status
    record of the backend (not the record of a failed poll, which says
    ["status": "error"] at its top level).  When its status is neither
    ["completed"] nor ["error"] (and, if the status is ["processing"], its
    [progress_percentage] is a number from 0 to 100, so that the progress
    bar can be drawn), the pass ends in [st.rerun()] after that single
    poll: at once if "Refresh Status" was pressed in this pass, and
    otherwise after one wait of exactly 3 seconds, which is the last thing
    the pass does; the pass that follows polls the status of the same task
    again.  When the status is ["completed"] or ["error"], the pass neither
    waits nor reruns. *)
Theorem auto_refresh_cadence i s d st :
  hd_error (polls (trace_of (render i s))) = Some (Ok d) ->
  current_status_of d = Ok st ->
  (not_terminal st = true ->
   reports_failure d = false ->
   (Py.eq_str st "processing" = true -> progress_in_range d = true) ->
   outcome_of (render i s) = Halted Rerun
   /\ polls (trace_of (render i s)) = [Ok d]
   /\ sleeps (trace_of (render i s))
      = (if clicked i BtnRefresh then [] else [Slept 3])
   /\ (clicked i BtnRefresh = false ->
       exists before, trace_of (render i s) = (before ++ [Slept 3])%list)
   /\ (forall i', clicked i' BtnAnalyze = false ->
         hd_error (polls (trace_of (render i' (session_of (render i s)))))
         = Some (check_task_status (net i' AtStatusPanel) (task_id s))))
  /\ (not_terminal st = false ->
      sleeps (trace_of (render i s)) = []
      /\ outcome_of (render i s) <> Halted Rerun).
Proof.
  intros Hfirst Hst.
  destruct (render_shape i s)
    as [before h Hhalt Hp Hd Hs Htr
       | before Hnotask Hp Hd Hs Htr
       | before t3 h s1 Hp Hd Hs Htid Htask H3 Hr
       | before t3 t4 o4 s1 Hp Hd Hs Htid Htask H3 H4 Hr].
  - rewrite Htr, Hp in Hfirst. discriminate.
  - rewrite Htr, Hp in Hfirst. discriminate.
  - pose proof (status_column_polls i s1 Htid) as Hp3.
    rewrite H3 in Hp3. unfold trace_of in Hp3. cbn [snd] in Hp3.
    rewrite Hr in *. unfold trace_of, outcome_of, session_of in *.
    cbn [fst snd] in *.
    rewrite polls_app, Hp, Hp3 in Hfirst. cbn in Hfirst.
    injection Hfirst as Hd1.
    split.
    + intros Hnt _ Hnum.
      destruct (status_column_refreshes i s1 d st Htid Hd1 Hst Hnt Hnum)
        as (pct & step & _ & _ & Hrefresh).
      match type of Hrefresh with
      | context [(?x ++ Shown (Button BtnRefresh) :: _)%list] =>
          set (display := x) in *
      end.
      assert (Hdisplay : forallb is_display display = true).
      { subst display. destruct (Py.eq_str st "processing"); reflexivity. }
      clearbody display.
      rewrite Hrefresh in H3. injection H3 as <- <-.
      assert (Hsleeps : forall shown2 : list event,
                forallb is_display shown2 = true ->
                sleeps (before
                        ++ Shown (Header "Status")
                        :: Called (GetStatus (task_id s1)) (Ok d)
                        :: shown2
                        ++ Shown (Button BtnRefresh)
                        :: (if clicked i BtnRefresh then [] else [Slept 3]))
                = (if clicked i BtnRefresh then [] else [Slept 3])).
      { intros shown2 H2. destruct (display_only shown2 H2) as (_ & _ & _ & Hs2).
        rewrite sleeps_app, Hs. cbn. fold (sleeps (shown2
                        ++ Shown (Button BtnRefresh)
                        :: (if clicked i BtnRefresh then [] else [Slept 3]))).
        rewrite sleeps_app, Hs2. cbn.
        destruct (clicked i BtnRefresh); reflexivity. }
      repeat split.
      * rewrite polls_app, Hp, Hp3, Hd1. reflexivity.
      * apply Hsleeps. exact Hdisplay.
      * intros Hnoclick. rewrite Hnoclick.
        exists (before ++ Shown (Header "Status")
                :: Called (GetStatus (task_id s1)) (Ok d)
                :: display ++ [Shown (Button BtnRefresh)])%list.
        rewrite <- !app_assoc. cbn. rewrite <- !app_assoc. reflexivity.
      * intros i' Hclick'. rewrite <- Htask.
        now apply render_polls_first.
    + intros Hnt. exfalso.
      rewrite (status_column_terminal i s1 d st Htid Hd1 Hst Hnt) in H3.
      discriminate.
  - pose proof (status_column_polls i s1 Htid) as Hp3.
    rewrite H3 in Hp3. unfold trace_of in Hp3. cbn [snd] in Hp3.
    rewrite Hr in *. unfold trace_of, outcome_of, session_of in *.
    cbn [fst snd] in *.
    rewrite !polls_app, Hp, Hp3 in Hfirst. cbn in Hfirst.
    injection Hfirst as Hd1.
    split.
    + intros Hnt _ Hnum. exfalso.
      destruct (status_column_refreshes i s1 d st Htid Hd1 Hst Hnt Hnum)
        as (pct & step & _ & _ & Hrefresh).
      rewrite Hrefresh in H3. discriminate.
    + intros _.
      pose proof (status_column_done_no_sleep i s1 t3 H3) as Hs3.
      destruct (results_section_quiet i s1) as [Hs4 _].
      pose proof (results_section_no_rerun i s1) as Hno.
      rewrite H4 in Hs4, Hno. unfold trace_of, outcome_of in Hs4, Hno.
      cbn [fst snd] in Hs4, Hno.
      split; [|exact Hno].
      rewrite !sleeps_app, Hs, Hs3, Hs4.
      destruct o4 as [[]|]; reflexivity.
Qed.

Lemma auto_refresh_cadence_witness :
  sleeps (trace_of (render (sample_inputs (backend_reporting "processing")
                              None "https://github.com/acme/widgets"
                              "20260101_120000")
                           busy_session)) = [Slept 3]
  /\ outcome_of (render (sample_inputs (backend_reporting "processing")
                           None "https://github.com/acme/widgets"
                           "20260101_120000")
                        busy_session) = Halted Rerun.
Proof.
  destruct (proj1 (auto_refresh_cadence
                     (sample_inputs (backend_reporting "processing") None
                        "https://github.com/acme/widgets" "20260101_120000")
                     busy_session
                     (status_record "processing" 40 "parsing")
                     (JStr "processing") eq_refl eq_refl)
                  eq_refl eq_refl (fun _ => eq_refl))
    as (Houtcome & _ & Hsleeps & _).
  split; [exact Hsleeps | exact Houtcome].
Defined.

(** ** Rendering a finished task again *)

Section SamePollSameDocument.
Variables (i1 i2 : inputs) (s1 s2 : session) (d st : json).
Hypothesis task1 : Py.truthy (task_id s1) = true.
Hypothesis task2 : Py.truthy (task_id s2) = true.
Hypothesis panel1 : check_task_status (net i1 AtStatusPanel) (task_id s1) = Ok d.
Hypothesis panel2 : check_task_status (net i2 AtStatusPanel) (task_id s2) = Ok d.
Hypothesis results1 : check_task_status (net i1 AtResults) (task_id s1) = Ok d.
Hypothesis results2 : check_task_status (net i2 AtResults) (task_id s2) = Ok d.
Hypothesis status_of_d : current_status_of d = Ok st.
Hypothesis terminal : not_terminal st = false.
Hypothesis same_document :
  download_documentation (net i1 AtDownload) (task_id s1)
  = download_documentation (net i2 AtDownload) (task_id s2).

Lemma same_status_panel :
  shown (trace_of (status_column i1 s1)) = shown (trace_of (status_column i2 s2)).
Proof.
  rewrite (status_column_terminal i1 s1 d st task1 panel1 status_of_d terminal).
  rewrite (status_column_terminal i2 s2 d st task2 panel2 status_of_d terminal).
  reflexivity.
Qed.

Lemma same_results_but_file_name :
  map without_file_name (shown (trace_of (results_section i1 s1)))
  = map without_file_name (shown (trace_of (results_section i2 s2))).
Proof.
  destruct (download_documentation_returns (net i2 AtDownload) (task_id s2))
    as [doc Hdoc2].
  pose proof same_document as Hdoc1. rewrite Hdoc2 in Hdoc1.
  unfold results_section, show_documentation, stats_tab. cbn.
  rewrite task1, task2. cbn. rewrite results1, results2. cbn.
  rewrite status_of_d. cbn.
  destruct (Py.eq_str st "completed"); cbn.
  - rewrite Hdoc1, Hdoc2. run; reflexivity.
  - run; reflexivity.
Qed.

Lemma same_results_same_clock :
  now i1 = now i2 ->
  shown (trace_of (results_section i1 s1))
  = shown (trace_of (results_section i2 s2)).
Proof.
  intros Hnow.
  destruct (download_documentation_returns (net i2 AtDownload) (task_id s2))
    as [doc Hdoc2].
  pose proof same_document as Hdoc1. rewrite Hdoc2 in Hdoc1.
  unfold results_section, show_documentation, stats_tab. cbn.
  rewrite task1, task2. cbn. rewrite results1, results2. cbn.
  rewrite status_of_d. cbn.
  destruct (Py.eq_str st "completed"); cbn.
  - rewrite Hdoc1, Hdoc2, Hnow. run; reflexivity.
  - run; reflexivity.
Qed.
End SamePollSameDocument.

(** C4, as stated, fails: two passes over the same ["completed"] poll
    result and the same document, three seconds apart, show download
    buttons that offer different file names. *)
Lemma clock_shows_in_the_view :
  ~ (forall i1 i2 s d st,
       Py.truthy (task_id s) = true ->
       check_task_status (net i1 AtStatusPanel) (task_id s) = Ok d ->
       check_task_status (net i2 AtStatusPanel) (task_id s) = Ok d ->
       check_task_status (net i1 AtResults) (task_id s) = Ok d ->
       check_task_status (net i2 AtResults) (task_id s) = Ok d ->
       current_status_of d = Ok st ->
       not_terminal st = false ->
       download_documentation (net i1 AtDownload) (task_id s)
       = download_documentation (net i2 AtDownload) (task_id s) ->
       shown (trace_of (results_section i1 s))
       = shown (trace_of (results_section i2 s))).
Proof.
  intros Hclaim.
  specialize (Hclaim
                (sample_inputs (backend_reporting "completed") None
                   "https://github.com/acme/widgets" "20260101_120000")
                (sample_inputs (backend_reporting "completed") None
                   "https://github.com/acme/widgets" "20260101_120003")
                busy_session
                (status_record "completed" 40 "parsing")
                (JStr "completed")
                eq_refl eq_refl eq_refl eq_refl eq_refl eq_refl eq_refl eq_refl).
  vm_compute in Hclaim. discriminate.
Qed.

(** C4, amended.  Take two passes on a session with a task, whose polls all
    return the same record of status ["completed"] or ["error"], and whose
    downloads return the same document.  The status panel shows the same
    elements in both.  The results section shows the same elements in both
    apart from the file name offered by the download button, which carries
    the time of the pass; with the same clock reading the two views are
    equal.  Each pass calls [download_documentation] once when the status
    is ["completed"] and not at all when it is ["error"]. *)
Theorem terminal_view_repeats i1 i2 s1 s2 d st :
  Py.truthy (task_id s1) = true ->
  Py.truthy (task_id s2) = true ->
  check_task_status (net i1 AtStatusPanel) (task_id s1) = Ok d ->
  check_task_status (net i2 AtStatusPanel) (task_id s2) = Ok d ->
  check_task_status (net i1 AtResults) (task_id s1) = Ok d ->
  check_task_status (net i2 AtResults) (task_id s2) = Ok d ->
  current_status_of d = Ok st ->
  not_terminal st = false ->
  download_documentation (net i1 AtDownload) (task_id s1)
  = download_documentation (net i2 AtDownload) (task_id s2) ->
  shown (trace_of (status_column i1 s1)) = shown (trace_of (status_column i2 s2))
  /\ map without_file_name (shown (trace_of (results_section i1 s1)))
     = map without_file_name (shown (trace_of (results_section i2 s2)))
  /\ (now i1 = now i2 ->
      shown (trace_of (results_section i1 s1))
      = shown (trace_of (results_section i2 s2)))
  /\ (downloads (trace_of (status_column i1 s1)) = 0
      /\ downloads (trace_of (status_column i2 s2)) = 0)%nat
  /\ (downloads (trace_of (results_section i1 s1))
      = if Py.eq_str st "completed" then 1 else 0)%nat
  /\ (downloads (trace_of (results_section i2 s2))
      = if Py.eq_str st "completed" then 1 else 0)%nat.
Proof.
  intros task1 task2 panel1 panel2 results1 results2 Hst Hterm Hdoc.
  split; [|split; [|split; [|split; [|split]]]].
  - exact (same_status_panel i1 i2 s1 s2 d st task1 task2 panel1 panel2 Hst Hterm).
  - exact (same_results_but_file_name i1 i2 s1 s2 d st task1 task2
             results1 results2 Hst Hdoc).
  - exact (same_results_same_clock i1 i2 s1 s2 d st task1 task2
             results1 results2 Hst Hdoc).
  - split; apply status_column_quiet.
  - exact (results_section_downloads i1 s1 d st task1 results1 Hst).
  - exact (results_section_downloads i2 s2 d st task2 results2 Hst).
Qed.

Lemma terminal_view_repeats_witness :
  map without_file_name
    (shown (trace_of (results_section
                        (sample_inputs (backend_reporting "completed") None
                           "https://github.com/acme/widgets" "20260101_120000")
                        busy_session)))
  = map without_file_name
      (shown (trace_of (results_section
                          (sample_inputs (backend_reporting "completed") None
                             "https://github.com/acme/widgets" "20260101_120003")
                          busy_session))).
Proof.
  exact (proj1 (proj2 (terminal_view_repeats
           (sample_inputs (backend_reporting "completed") None
              "https://github.com/acme/widgets" "20260101_120000")
           (sample_inputs (backend_reporting "completed") None
              "https://github.com/acme/widgets" "20260101_120003")
           busy_session busy_session
           (status_record "completed" 40 "parsing") (JStr "completed")
           eq_refl eq_refl eq_refl eq_refl eq_refl eq_refl eq_refl eq_refl
           eq_refl))).
Defined.

(** ** A failed poll *)

(** The record [check_task_status] returns for a failed request carries its
    ["error"] status at the top level, where the panel does not look: the
    status read from it is ["unknown"]. *)
Lemma failed_poll_reads_unknown message :
  current_status_of (JObj [("status", JStr "error"); ("error", JStr message)])
  = Ok (JStr "unknown").
Proof. reflexivity. Qed.

(** So a pass whose poll fails is not terminal: it waits and reruns. *)
Lemma failed_poll_keeps_polling :
  render (sample_inputs backend_unavailable None
            "https://github.com/acme/widgets" "20260101_120000")
         busy_session
  = (Halted Rerun, busy_session,
     page_top
     ++ [ Shown (Header "Settings");
          Called GetHealth (Ok (JBool false));
          Shown (Error [Lit "Backend is not responding"]);
          Shown (Info [Lit backend_hint]);
          Shown Divider;
          Shown (Subheader "About");
          Shown (Info [Lit about_text]);
          Shown Divider;
          Shown (Subheader "Examples");
          Shown (Selectbox "Try an example:" (placeholder :: example_repos));
          Shown (Header "Generate Documentation");
          Shown (TextInput "GitHub Repository URL"
                   "https://github.com/acme/widgets");
          Shown (Button BtnAnalyze);
          Shown (Header "Status");
          Called (GetStatus (JStr "task-1"))
            (Ok (JObj [("status", JStr "error");
                       ("error", JStr "Failed to check status")]));
          Shown (Warning [Lit "Status: "; Str (JStr "unknown")]);
          Shown (Progress (Percent 0));
          Shown (Button BtnRefresh);
          Slept 3 ])%list.
Proof. reflexivity. Qed.

(** * Further properties of the script *)

(** ** The helpers on every backend behaviour *)

(** X1. Each helper returns whatever the backend does, and a response with
    status 200 whose body is not JSON gives the error dict of the [except]
    branch, carrying the decoder's message. *)
Theorem helpers_always_return net url tid :
  (exists b, check_backend_health net = Ok b)
  /\ (exists v, analyze_repository net url = Ok v)
  /\ (exists v, check_task_status net tid = Ok v)
  /\ (exists v, download_documentation net tid = Ok v)
  /\ (forall r e, net (PostAnalyze url) = Ok r -> status_code r = 200 ->
                  response_json r = Raise e ->
                  analyze_repository net url
                  = Ok (JObj [("error", JStr (exn_str e))]))
  /\ (forall r e, net (GetDownload tid) = Ok r -> status_code r = 200 ->
                  response_json r = Raise e ->
                  download_documentation net tid
                  = Ok (JObj [("error", JStr (exn_str e))])).
Proof.
  split; [apply check_backend_health_returns|].
  split; [apply analyze_repository_returns|].
  split; [apply check_task_status_returns|].
  split; [apply download_documentation_returns|].
  split; intros r e Hr Hcode Hjson.
  - destruct (analyze_repository_cases net url)
      as [(r'&j&Hr'&_&Hj&_)|[(r'&e'&Hr'&_&Hj&H)|[(r'&Hr'&Hc&_)|(e'&Hr'&_)]]];
      rewrite Hr in Hr'; try discriminate; injection Hr' as <-; congruence.
  - destruct (download_documentation_cases net tid)
      as [(r'&j&Hr'&_&Hj&_)|[(r'&e'&Hr'&_&Hj&H)|[(r'&Hr'&Hc&_)|(e'&Hr'&_)]]];
      rewrite Hr in Hr'; try discriminate; injection Hr' as <-; congruence.
Qed.

Lemma helpers_always_return_witness :
  analyze_repository backend_garbled "https://github.com/acme/widgets"
  = Ok (JObj [("error", JStr "Expecting value")]).
Proof.
  apply (proj1 (proj2 (proj2 (proj2 (proj2
           (helpers_always_return backend_garbled
              "https://github.com/acme/widgets" (JStr "task-1"))))))
           (Response 200 (Raise (Exn JSONDecodeError "Expecting value")))
           (Exn JSONDecodeError "Expecting value"));
    reflexivity.
Defined.

(** ** What writes the session *)

Lemma sidebar_keeps_status i : keeps status (sidebar i).
Proof. unfold sidebar. frame_rule. Qed.

(** X2. A pass in which neither "Use This Example" nor "Analyze
    Repository" is pressed leaves the whole session as it was: polling,
    refreshing and downloading never write it.  So does any sequence of
    such passes. *)
Theorem polling_keeps_session :
  (forall i s,
     clicked i BtnUseExample = false -> clicked i BtnAnalyze = false ->
     session_of (render i s) = s)
  /\ (forall passes s,
        Forall (fun i => clicked i BtnUseExample = false
                         /\ clicked i BtnAnalyze = false) passes ->
        run_passes passes s = s).
Proof.
  assert (Hone : forall i s,
             clicked i BtnUseExample = false -> clicked i BtnAnalyze = false ->
             session_of (render i s) = s).
  { intros i s Hexample Hanalyze.
    pose proof (input_column_not_clicked i (session_of (sidebar i s)) Hanalyze)
      as Hinput.
    destruct (render_until_input i s _ _ _ Hinput)
      as (t1 & rest & _ & _ & _ & _ & Hsession).
    rewrite (Hsession eq_refl). now apply sidebar_without_click. }
  split; [exact Hone|].
  intros passes. induction passes as [|i rest IH]; intros s Hall; [reflexivity|].
  inversion Hall as [|? ? [Hexample Hanalyze] Hrest]; subst.
  cbn [run_passes].
  pose proof (Hone i s Hexample Hanalyze) as Hs. unfold session_of in Hs.
  destruct (render i s) as [[o s'] tr]. cbn in Hs. subst s'.
  now apply IH.
Qed.

Lemma polling_keeps_session_witness :
  session_of (render (sample_inputs (backend_reporting "processing")
                        (Some BtnRefresh) "https://github.com/acme/widgets"
                        "20260101_120000")
                     busy_session)
  = busy_session.
Proof.
  apply (proj1 polling_keeps_session); reflexivity.
Defined.

Lemma input_column_writes i s :
  session_of (input_column i s) = s
  \/ (outcome_of (input_column i s) = Halted Rerun
      /\ status (session_of (input_column i s)) = Some "processing"
      /\ repo_url (session_of (input_column i s)) = text_input i (repo_url s)
      /\ analyze_calls (trace_of (input_column i s)) = 1%nat).
Proof.
  destruct (analyze_repository_returns (net i AtSubmit)
              (text_input i (repo_url s))) as [result Hresult].
  unfold input_column, submit. cbn.
  destruct (clicked i BtnAnalyze); cbn; [|now left].
  destruct (is_empty _); cbn; [now left|].
  destruct (negb _); cbn; [now left|].
  rewrite Hresult. run; try (now left).
  right. repeat split.
Qed.

Lemma render_session_cases i s :
  (task_id (session_of (render i s)) = task_id s
   /\ status (session_of (render i s)) = status s)
  \/ (outcome_of (render i s) = Halted Rerun
      /\ status (session_of (render i s)) = Some "processing"
      /\ repo_url (session_of (render i s)) = entered_url i s
      /\ analyze_calls (trace_of (render i s)) = 1%nat).
Proof.
  pose proof (sidebar_keeps_task_id i s) as Htask.
  pose proof (sidebar_keeps_status i s) as Hstatus.
  destruct (sidebar_result i s) as (t1 & Hside & Ht1).
  destruct (display_only t1 Ht1) as (_ & _ & Ha1 & _).
  pose proof (input_column_writes i (session_of (sidebar i s))) as Hwrites.
  destruct (input_column i (session_of (sidebar i s))) as [[o2 s2] t2] eqn:Hinput.
  destruct (render_until_input i s _ _ _ Hinput)
    as (t1' & rest & _ & _ & Htrace & Hhalt & Hdone).
  unfold session_of, outcome_of, trace_of in Hwrites. cbn [fst snd] in Hwrites.
  destruct Hwrites as [Hsame|(Ho & Hst & Hurl & Hcalls)].
  - left. subst s2.
    assert (Hs : session_of (render i s) = session_of (sidebar i s)).
    { destruct o2 as [[]|h]; [now apply Hdone|].
      now rewrite (Hhalt h eq_refl). }
    rewrite Hs. now split.
  - right. subst o2. rewrite (Hhalt Rerun eq_refl).
    unfold session_of, outcome_of, trace_of, entered_url. cbn [fst snd].
    repeat split; auto.
    rewrite !analyze_calls_app. cbn.
    pose proof (render_sections i s) as Hr.
    rewrite Hside, Hinput in Hr. rewrite (Hhalt Rerun eq_refl) in Hr.
    injection Hr as Hr. apply app_inv_tail in Hr.
    subst t1'. now rewrite Ha1, Hcalls.
Qed.

(** X3. A pass changes [task_id] or [status] only by an accepted
    submission: either both are as before, or the pass ended in
    [st.rerun()] after exactly one call of [analyze_repository], with
    [status] set to ["processing"] and [repo_url] to the submitted URL. *)
Theorem session_written_only_by_submission i s :
  (task_id (session_of (render i s)) = task_id s
   /\ status (session_of (render i s)) = status s)
  \/ (outcome_of (render i s) = Halted Rerun
      /\ status (session_of (render i s)) = Some "processing"
      /\ repo_url (session_of (render i s)) = entered_url i s
      /\ analyze_calls (trace_of (render i s)) = 1%nat).
Proof. exact (render_session_cases i s). Qed.

Lemma render_keeps_invariant i s :
  status_invariant s -> status_invariant (session_of (render i s)).
Proof.
  intros [Hstatus Htask].
  destruct (render_session_cases i s) as [[Ht Hs]|(_ & Hs & _)];
    unfold status_invariant.
  - rewrite Ht, Hs. now split.
  - rewrite Hs. split; auto.
Qed.

(** X4. From a fresh session, after any sequence of passes, the session
    [status] is [None] or ["processing"] (it never follows the task to
    ["completed"] or ["error"]), and a task id is set only together with
    ["processing"]. *)
Theorem session_status_invariant passes :
  status_invariant (run_passes passes idle_session)
  /\ forall s, status_invariant s -> status_invariant (run_passes passes s).
Proof.
  assert (Hkeep : forall s, status_invariant s ->
                            status_invariant (run_passes passes s)).
  { induction passes as [|i rest IH]; intros s Hs; [exact Hs|].
    cbn [run_passes].
    pose proof (render_keeps_invariant i s Hs) as Hnext.
    unfold session_of in Hnext.
    destruct (render i s) as [[o s'] tr]. cbn in Hnext. now apply IH. }
  split; [|exact Hkeep].
  apply Hkeep. split; [now left|discriminate].
Qed.

Lemma session_status_invariant_witness :
  status_invariant
    (run_passes [ sample_inputs (backend_reporting "processing")
                    (Some BtnAnalyze) "https://github.com/acme/widgets"
                    "20260101_120000";
                  sample_inputs (backend_reporting "completed") None
                    "https://github.com/acme/widgets" "20260101_120003" ]
                busy_session).
Proof.
  apply (proj2 (session_status_invariant _)).
  split; [now right|reflexivity].
Defined.

(** ** How many calls a pass makes, and for which task *)

Lemma input_column_analyze_calls i s :
  analyze_calls (trace_of (input_column i s))
  = if clicked i BtnAnalyze && negb (invalid_url (text_input i (repo_url s)))
    then 1%nat else 0%nat.
Proof.
  destruct (analyze_repository_returns (net i AtSubmit)
              (text_input i (repo_url s))) as [result Hresult].
  unfold input_column, submit, invalid_url. cbn.
  destruct (clicked i BtnAnalyze); cbn; [|reflexivity].
  destruct (is_empty _); cbn; [reflexivity|].
  destruct (String.prefix _ _); cbn; [|reflexivity].
  rewrite Hresult. run; reflexivity.
Qed.

Lemma no_submission_after_input rest :
  forallb (fun ev => is_display ev || is_poll ev || is_sleep ev
                     || is_download_call ev) rest = true ->
  analyze_calls rest = 0%nat.
Proof.
  intros H. unfold analyze_calls.
  erewrite filter_none; [reflexivity| |exact H]. by_event.
Qed.

Lemma render_analyze_calls i s :
  analyze_calls (trace_of (render i s))
  = if clicked i BtnAnalyze && negb (invalid_url (entered_url i s))
    then 1%nat else 0%nat.
Proof.
  pose proof (input_column_analyze_calls i (session_of (sidebar i s))) as Hcalls.
  destruct (input_column i (session_of (sidebar i s))) as [[o2 s2] t2] eqn:Hinput.
  destruct (render_until_input i s _ _ _ Hinput)
    as (t1 & rest & Ht1 & Hrest & Htrace & _).
  destruct (display_only t1 Ht1) as (_ & _ & Ha1 & _).
  rewrite Htrace, !analyze_calls_app, Ha1, (no_submission_after_input rest Hrest).
  unfold trace_of in Hcalls. cbn [snd] in Hcalls.
  unfold entered_url. rewrite Hcalls. cbn. lia.
Qed.

(** X5. A pass calls [analyze_repository] exactly once when the analyze
    button is pressed on a non-empty URL with the GitHub prefix, and not at
    all otherwise. *)
Theorem submission_issued_iff_valid i s :
  analyze_calls (trace_of (render i s))
  = if clicked i BtnAnalyze && negb (invalid_url (entered_url i s))
    then 1%nat else 0%nat.
Proof. exact (render_analyze_calls i s). Qed.

Lemma status_column_sleeps i s :
  (List.length (sleeps (trace_of (status_column i s))) <= 1)%nat.
Proof.
  destruct (check_task_status_returns (net i AtStatusPanel) (task_id s))
    as [d Hd].
  unfold status_column, status_display, auto_refresh. cbn.
  destruct (Py.truthy (task_id s)); cbn; [|lia].
  rewrite Hd. run; lia.
Qed.

Lemma results_section_downloads_le i s :
  (downloads (trace_of (results_section i s)) <= 1)%nat.
Proof.
  destruct (check_task_status_returns (net i AtResults) (task_id s)) as [d Hd].
  destruct (download_documentation_returns (net i AtDownload) (task_id s))
    as [doc Hdoc].
  unfold results_section, show_documentation, stats_tab. cbn.
  destruct (Py.truthy (task_id s)); cbn; [|lia].
  rewrite Hd. cbn.
  destruct (current_status_of d); cbn; [|lia].
  destruct (Py.eq_str a "completed"); cbn.
  - rewrite Hdoc. run; lia.
  - run; lia.
Qed.

(** X6. Whatever the backend and the user do, one pass calls
    [analyze_repository] at most once, [check_task_status] at most twice and
    [download_documentation] at most once, and sleeps at most once. *)
Theorem pass_call_bounds i s :
  (analyze_calls (trace_of (render i s)) <= 1
   /\ List.length (polls (trace_of (render i s))) <= 2
   /\ downloads (trace_of (render i s)) <= 1
   /\ List.length (sleeps (trace_of (render i s))) <= 1)%nat.
Proof.
  split.
  { rewrite render_analyze_calls. destruct (_ && _); lia. }
  destruct (render_shape i s)
    as [before h Hhalt Hp Hd Hs Htr
       | before Hnotask Hp Hd Hs Htr
       | before t3 h s1 Hp Hd Hs Htid Htask H3 Hr
       | before t3 t4 o4 s1 Hp Hd Hs Htid Htask H3 H4 Hr].
  - rewrite Htr, Hp, Hd, Hs. cbn. lia.
  - rewrite Htr, Hp, Hd, Hs. cbn. lia.
  - pose proof (status_column_polls i s1 Htid) as Hp3.
    destruct (status_column_quiet i s1) as [Hd3 _].
    pose proof (status_column_sleeps i s1) as Hs3.
    rewrite H3 in Hp3, Hd3, Hs3. unfold trace_of in Hp3, Hd3, Hs3.
    cbn [snd] in Hp3, Hd3, Hs3.
    rewrite Hr. unfold trace_of. cbn [snd].
    rewrite polls_app, downloads_app, sleeps_app, Hp, Hd, Hs, Hp3, Hd3.
    cbn. lia.
  - pose proof (status_column_polls i s1 Htid) as Hp3.
    destruct (status_column_quiet i s1) as [Hd3 _].
    pose proof (status_column_done_no_sleep i s1 t3 H3) as Hs3.
    pose proof (results_section_polls i s1 Htid) as Hp4.
    pose proof (results_section_downloads_le i s1) as Hd4.
    destruct (results_section_quiet i s1) as [Hs4 _].
    rewrite H3 in Hp3, Hd3. rewrite H4 in Hp4, Hd4, Hs4.
    unfold trace_of in Hp3, Hd3, Hp4, Hd4, Hs4.
    cbn [snd] in Hp3, Hd3, Hp4, Hd4, Hs4.
    rewrite Hr. unfold trace_of. cbn [snd].
    rewrite !polls_app, !downloads_app, !sleeps_app,
      Hp, Hd, Hs, Hp3, Hd3, Hs3, Hp4, Hs4.
    destruct o4 as [[]|]; cbn; lia.
Qed.

Lemma quiet_names_task tid tr :
  polls tr = [] -> downloads tr = 0%nat -> Forall (names_task tid) tr.
Proof.
  unfold downloads.
  induction tr as [|ev tr IH]; intros Hp Hd; [constructor|].
  destruct ev as [[] ?| |]; cbn in Hp, Hd; try discriminate;
    constructor; cbn; auto.
Qed.

Lemma status_column_names_task i s :
  Forall (names_task (task_id s)) (trace_of (status_column i s)).
Proof.
  destruct (check_task_status_returns (net i AtStatusPanel) (task_id s))
    as [d Hd].
  unfold status_column, status_display, auto_refresh. cbn.
  destruct (Py.truthy (task_id s)); cbn; [|constructor].
  rewrite Hd. run; repeat (constructor; cbn; auto).
Qed.

Lemma results_section_names_task i s :
  Forall (names_task (task_id s)) (trace_of (results_section i s)).
Proof.
  destruct (check_task_status_returns (net i AtResults) (task_id s)) as [d Hd].
  destruct (download_documentation_returns (net i AtDownload) (task_id s))
    as [doc Hdoc].
  unfold results_section, show_documentation, stats_tab. cbn.
  destruct (Py.truthy (task_id s)); cbn; [|constructor].
  rewrite Hd. cbn.
  destruct (current_status_of d); cbn; [|repeat (constructor; cbn; auto)].
  destruct (Py.eq_str a "completed"); cbn.
  - rewrite Hdoc. run; repeat (constructor; cbn; auto).
  - run; repeat (constructor; cbn; auto).
Qed.

(** X7. Every status poll and every download of a pass is for the task id
    the session held when the pass began; a task accepted during the pass
    is not polled before the rerun. *)
Theorem requests_name_the_session_task i s :
  Forall (names_task (task_id s)) (trace_of (render i s)).
Proof.
  destruct (render_shape i s)
    as [before h Hhalt Hp Hd Hs Htr
       | before Hnotask Hp Hd Hs Htr
       | before t3 h s1 Hp Hd Hs Htid Htask H3 Hr
       | before t3 t4 o4 s1 Hp Hd Hs Htid Htask H3 H4 Hr].
  - rewrite Htr. now apply quiet_names_task.
  - rewrite Htr. now apply quiet_names_task.
  - pose proof (status_column_names_task i s1) as H3n.
    rewrite H3, Htask in H3n. unfold trace_of in H3n. cbn [snd] in H3n.
    rewrite Hr. unfold trace_of. cbn [snd].
    apply Forall_app. split; [now apply quiet_names_task|exact H3n].
  - pose proof (status_column_names_task i s1) as H3n.
    pose proof (results_section_names_task i s1) as H4n.
    rewrite H3, Htask in H3n. rewrite H4, Htask in H4n.
    unfold trace_of in H3n, H4n. cbn [snd] in H3n, H4n.
    rewrite Hr. unfold trace_of. cbn [snd].
    repeat (apply Forall_app; split); auto.
    + now apply quiet_names_task.
    + destruct o4 as [[]|]; repeat (constructor; cbn; auto).
Qed.

(** ** Poll results the status panel does not expect *)

(** The pass up to and including the status panel, once it has polled. *)
Lemma first_poll_shape i s v :
  hd_error (polls (trace_of (render i s))) = Some v ->
  exists before s1 o3 t3,
    polls before = [] /\ downloads before = 0%nat /\ sleeps before = []
    /\ Py.truthy (task_id s1) = true
    /\ task_id s1 = task_id s
    /\ check_task_status (net i AtStatusPanel) (task_id s1) = v
    /\ status_column i s1 = (o3, s1, t3)
    /\ (forall h, o3 = Halted h ->
                  render i s = (Halted h, s1, before ++ t3)%list).
Proof.
  intros Hfirst.
  destruct (render_shape i s)
    as [before h Hhalt Hp Hd Hs Htr
       | before Hnotask Hp Hd Hs Htr
       | before t3 h s1 Hp Hd Hs Htid Htask H3 Hr
       | before t3 t4 o4 s1 Hp Hd Hs Htid Htask H3 H4 Hr].
  - rewrite Htr, Hp in Hfirst. discriminate.
  - rewrite Htr, Hp in Hfirst. discriminate.
  - pose proof (status_column_polls i s1 Htid) as Hp3.
    rewrite H3 in Hp3. unfold trace_of in Hp3. cbn [snd] in Hp3.
    rewrite Hr in Hfirst. unfold trace_of in Hfirst. cbn [snd] in Hfirst.
    rewrite polls_app, Hp, Hp3 in Hfirst. cbn in Hfirst.
    injection Hfirst as Hv.
    exists before, s1, (Halted h), t3. repeat split; auto.
    intros h' [= <-]. exact Hr.
  - pose proof (status_column_polls i s1 Htid) as Hp3.
    rewrite H3 in Hp3. unfold trace_of in Hp3. cbn [snd] in Hp3.
    rewrite Hr in Hfirst. unfold trace_of in Hfirst. cbn [snd] in Hfirst.
    rewrite !polls_app, Hp, Hp3 in Hfirst. cbn in Hfirst.
    injection Hfirst as Hv.
    exists before, s1, (Done tt), t3. repeat split; auto.
    discriminate.
Qed.

Lemma status_column_malformed i s d e :
  Py.truthy (task_id s) = true ->
  check_task_status (net i AtStatusPanel) (task_id s) = Ok d ->
  current_status_of d = Raise e ->
  status_column i s
  = (Halted (Uncaught e), s,
     [Shown (Header "Status"); Called (GetStatus (task_id s)) (Ok d)]).
Proof.
  intros Htid Hd Hst. unfold status_column. cbn.
  rewrite Htid. cbn. rewrite Hd. cbn. now rewrite Hst.
Qed.

Lemma current_status_of_raises d :
  (is_object d = false
   \/ exists fields v, d = JObj fields
                       /\ Py.lookup "progress" fields = Some v
                       /\ is_object v = false)
  <-> exists e, current_status_of d = Raise e.
Proof.
  unfold current_status_of, progress_field, res_bind, Py.get. split.
  - intros [Hd|(fields & v & -> & Hv & Hobj)].
    + destruct d; try discriminate; eauto.
    + rewrite Hv. destruct v; try discriminate; eauto.
  - intros [e He]. destruct d; try (now left).
    right. destruct (Py.lookup "progress" fields) as [v|] eqn:Hv.
    + exists fields, v. repeat split; auto. destruct v; try reflexivity.
      discriminate.
    + discriminate.
Qed.

(** X8. When the status panel's poll returns JSON that is not an object, or
    an object whose ["progress"] is not an object, reading the status
    raises: the pass stops right after the poll with that exception
    uncaught, having shown no status, and it neither waits, reruns nor
    downloads. *)
Theorem malformed_poll_halts_the_pass i s d :
  hd_error (polls (trace_of (render i s))) = Some (Ok d) ->
  (is_object d = false
   \/ exists fields v, d = JObj fields
                       /\ Py.lookup "progress" fields = Some v
                       /\ is_object v = false) ->
  exists e before,
    current_status_of d = Raise e
    /\ render i s
       = (Halted (Uncaught e), session_of (render i s),
          before ++ [Shown (Header "Status");
                     Called (GetStatus (task_id s)) (Ok d)])%list
    /\ polls before = [] /\ downloads before = 0%nat /\ sleeps before = [].
Proof.
  intros Hfirst Hbad.
  apply current_status_of_raises in Hbad as [e He].
  destruct (first_poll_shape i s _ Hfirst)
    as (before & s1 & o3 & t3 & Hp & Hd & Hs & Htid & Htask & Hv & H3 & Hhalt).
  rewrite (status_column_malformed i s1 d e Htid Hv He) in H3.
  injection H3 as <- <-.
  exists e, before. rewrite (Hhalt _ eq_refl), <- Htask.
  repeat split; auto.
Qed.

Lemma malformed_poll_halts_the_pass_witness :
  exists e,
    outcome_of (render (sample_inputs (backend_replying (JArr [])) None
                          "https://github.com/acme/widgets" "20260101_120000")
                       busy_session)
    = Halted (Uncaught e).
Proof.
  destruct (malformed_poll_halts_the_pass
              (sample_inputs (backend_replying (JArr [])) None
                 "https://github.com/acme/widgets" "20260101_120000")
              busy_session (JArr []) eq_refl (or_introl eq_refl))
    as (e & before & _ & Hr & _).
  exists e. now rewrite Hr.
Defined.

Lemma failed_request_record net tid :
  is_failure (net (GetStatus tid)) = true ->
  exists message, check_task_status net tid = Ok (failed_poll message).
Proof.
  unfold is_failure, failed_poll. intros Hfail.
  destruct (check_task_status_cases net tid)
    as [(r&j&Hr&Hc&_)|[(r&e&Hr&Hc&_)|[(r&_&_&H)|(e&_&H)]]];
    try (eexists; exact H);
    rewrite Hr in Hfail; apply Z.eqb_eq in Hc; rewrite Hc in Hfail;
    discriminate.
Qed.

Lemma failed_poll_pass i s :
  clicked i BtnAnalyze = false ->
  Py.truthy (task_id s) = true ->
  is_failure (net i AtStatusPanel (GetStatus (task_id s))) = true ->
  exists message before,
    check_task_status (net i AtStatusPanel) (task_id s)
    = Ok (failed_poll message)
    /\ polls before = [] /\ sleeps before = []
    /\ task_id (session_of (render i s)) = task_id s
    /\ render i s
       = (Halted Rerun, session_of (render i s),
          before
          ++ [ Shown (Header "Status");
               Called (GetStatus (task_id s)) (Ok (failed_poll message));
               Shown (Warning [Lit "Status: "; Str (JStr "unknown")]);
               Shown (Progress (Percent 0));
               Shown (Button BtnRefresh) ]
          ++ (if clicked i BtnRefresh then [] else [Slept 3]))%list.
Proof.
  intros Hclick Htid Hfail.
  destruct (failed_request_record _ _ Hfail) as [message Hrecord].
  pose proof (render_polls_first i s Hclick Htid) as Hfirst.
  destruct (first_poll_shape i s _ Hfirst)
    as (before & s1 & o3 & t3 & Hp & Hd & Hs & Htid1 & Htask & Hv & H3 & Hhalt).
  rewrite Hrecord in Hv.
  destruct (status_column_refreshes i s1 (failed_poll message) (JStr "unknown")
              Htid1 Hv eq_refl eq_refl (fun _ => eq_refl))
    as (pct & step & _ & _ & Hrefresh).
  rewrite Hrefresh in H3. injection H3 as <- <-.
  exists message, before.
  rewrite (Hhalt _ eq_refl), <- Htask.
  repeat split; auto.
Qed.

(** X9. A failed status request is not shown as an error.  The record the
    helper returns for it has its ["error"] status at the top level, where
    the panel does not look: the panel shows "Status: unknown" with an
    empty progress bar and the pass ends in [st.rerun()], at once or after
    the 3 second wait, so the client keeps polling. *)
Theorem failed_poll_is_shown_as_unknown i s :
  clicked i BtnAnalyze = false ->
  Py.truthy (task_id s) = true ->
  is_failure (net i AtStatusPanel (GetStatus (task_id s))) = true ->
  exists message before,
    check_task_status (net i AtStatusPanel) (task_id s)
    = Ok (failed_poll message)
    /\ polls before = [] /\ sleeps before = []
    /\ render i s
       = (Halted Rerun, session_of (render i s),
          before
          ++ [ Shown (Header "Status");
               Called (GetStatus (task_id s)) (Ok (failed_poll message));
               Shown (Warning [Lit "Status: "; Str (JStr "unknown")]);
               Shown (Progress (Percent 0));
               Shown (Button BtnRefresh) ]
          ++ (if clicked i BtnRefresh then [] else [Slept 3]))%list.
Proof.
  intros Hclick Htid Hfail.
  destruct (failed_poll_pass i s Hclick Htid Hfail)
    as (message & before & Hrecord & Hp & Hs & _ & Hr).
  exists message, before. auto.
Qed.

Lemma failed_poll_is_shown_as_unknown_witness :
  outcome_of (render (sample_inputs backend_unavailable None
                        "https://github.com/acme/widgets" "20260101_120000")
                     busy_session)
  = Halted Rerun.
Proof.
  destruct (failed_poll_is_shown_as_unknown
              (sample_inputs backend_unavailable None
                 "https://github.com/acme/widgets" "20260101_120000")
              busy_session eq_refl eq_refl eq_refl)
    as (message & before & _ & _ & _ & Hr).
  now rewrite Hr.
Defined.

Lemma status_column_bad_progress i s d pct step :
  Py.truthy (task_id s) = true ->
  check_task_status (net i AtStatusPanel) (task_id s) = Ok d ->
  current_status_of d = Ok (JStr "processing") ->
  progress_field d "progress_percentage" (JNum 0) = Ok pct ->
  progress_field d "current_step" (JStr EmptyString) = Ok step ->
  Py.is_number pct = false ->
  status_column i s
  = (Halted (Uncaught (Exn TypeError "unsupported operand type(s) for /")), s,
     [ Shown (Header "Status");
       Called (GetStatus (task_id s)) (Ok d);
       Shown (Info [Lit "Processing: "; Str step]) ]).
Proof.
  intros Htid Hd Hst Hpct Hstep Hnum.
  unfold status_column, status_display. cbn.
  rewrite Htid. cbn. rewrite Hd. cbn. rewrite Hst. cbn.
  rewrite Hpct. cbn. rewrite Hstep. cbn.
  change (Py.eq_str (JStr "processing") "completed") with false.
  change (Py.eq_str (JStr "processing") "error") with false.
  change (Py.eq_str (JStr "processing") "processing") with true.
  cbn. unfold divide_by_100. rewrite Hnum. reflexivity.
Qed.

(** X10. When the polled status is ["processing"] and its
    [progress_percentage] is not a number, [progress_pct / 100] raises a
    [TypeError] after the "Processing" line is shown: the pass stops there,
    without progress bar, wait or rerun. *)
Theorem non_numeric_progress_halts_the_pass i s d :
  hd_error (polls (trace_of (render i s))) = Some (Ok d) ->
  current_status_of d = Ok (JStr "processing") ->
  progress_is_number d = false ->
  exists before step,
    progress_field d "current_step" (JStr EmptyString) = Ok step
    /\ polls before = [] /\ sleeps before = []
    /\ render i s
       = (Halted (Uncaught (Exn TypeError "unsupported operand type(s) for /")),
          session_of (render i s),
          before
          ++ [ Shown (Header "Status");
               Called (GetStatus (task_id s)) (Ok d);
               Shown (Info [Lit "Processing: "; Str step]) ])%list.
Proof.
  intros Hfirst Hst Hnum.
  destruct (progress_field_defined _ _ _ _ "progress_percentage" (JNum 0) Hst)
    as [pct Hpct].
  destruct (progress_field_defined _ _ _ _ "current_step" (JStr EmptyString) Hst)
    as [step Hstep].
  unfold progress_is_number in Hnum. rewrite Hpct in Hnum.
  destruct (first_poll_shape i s _ Hfirst)
    as (before & s1 & o3 & t3 & Hp & Hd & Hs & Htid & Htask & Hv & H3 & Hhalt).
  rewrite (status_column_bad_progress i s1 d pct step Htid Hv Hst Hpct Hstep Hnum)
    in H3.
  injection H3 as <- <-.
  exists before, step. rewrite (Hhalt _ eq_refl), <- Htask.
  repeat split; auto.
Qed.

Lemma non_numeric_progress_halts_the_pass_witness :
  outcome_of
    (render (sample_inputs
               (backend_replying
                  (JObj [("progress",
                          JObj [("status", JStr "processing");
                                ("progress_percentage", JStr "40%")])]))
               None "https://github.com/acme/widgets" "20260101_120000")
            busy_session)
  = Halted (Uncaught (Exn TypeError "unsupported operand type(s) for /")).
Proof.
  destruct (non_numeric_progress_halts_the_pass
              (sample_inputs
                 (backend_replying
                    (JObj [("progress",
                            JObj [("status", JStr "processing");
                                  ("progress_percentage", JStr "40%")])]))
                 None "https://github.com/acme/widgets" "20260101_120000")
              busy_session _ eq_refl eq_refl eq_refl)
    as (before & step & _ & _ & _ & Hr).
  now rewrite Hr.
Defined.

(** ** A submission answered with JSON that is not an object *)

Lemma input_column_non_object i s v :
  clicked i BtnAnalyze = true ->
  invalid_url (text_input i (repo_url s)) = false ->
  analyze_repository (net i AtSubmit) (text_input i (repo_url s)) = Ok v ->
  is_object v = false ->
  exists e,
    input_column i s
    = (Halted (Uncaught e), s,
       [ Shown (Header "Generate Documentation");
         Shown (TextInput "GitHub Repository URL" (repo_url s));
         Shown (Button BtnAnalyze);
         Shown (Spinner "Starting analysis...");
         Called (PostAnalyze (text_input i (repo_url s))) (Ok v) ]).
Proof.
  unfold invalid_url, input_column, submit.
  intros Hclick Hvalid Hresult Hobj.
  apply orb_false_elim in Hvalid as [Hempty Hprefix].
  cbn. rewrite Hclick. cbn. rewrite Hempty, Hprefix. cbn.
  rewrite Hresult. cbn.
  unfold Py.contains, Py.subscript, Py.get.
  destruct v; try discriminate; cbn; eauto.
  - destruct (Py.substring_of "error" s0); cbn; eauto.
  - destruct (existsb (Py.is_str "error") items); cbn; eauto.
Qed.

(** X11. When the backend accepts a submission with status 200 but its JSON
    is not an object (a list, a string, a number, [null]), the handler
    raises on ["error" in result], [result["error"]] or [result.get]; the
    exception is uncaught, no task is recorded and the session stays as the
    handler found it. *)
Theorem non_object_submission_raises i s v :
  clicked i BtnAnalyze = true ->
  invalid_url (entered_url i s) = false ->
  analyze_repository (net i AtSubmit) (entered_url i s) = Ok v ->
  is_object v = false ->
  exists e,
    outcome_of (render i s) = Halted (Uncaught e)
    /\ session_of (render i s) = session_of (sidebar i s)
    /\ polls (trace_of (render i s)) = [].
Proof.
  intros Hclick Hvalid Hresult Hobj. unfold entered_url in *.
  destruct (input_column_non_object i _ v Hclick Hvalid Hresult Hobj)
    as [e Hinput].
  destruct (render_until_input i s _ _ _ Hinput)
    as (t1 & rest & Ht1 & _ & _ & Hhalt & _).
  destruct (display_only t1 Ht1) as (Hp1 & _).
  exists e. rewrite (Hhalt _ eq_refl).
  unfold outcome_of, session_of, trace_of. cbn [fst snd].
  repeat split. rewrite !polls_app, Hp1. reflexivity.
Qed.

Lemma non_object_submission_raises_witness :
  session_of (render (sample_inputs (backend_replying (JArr [JStr "task-1"]))
                        (Some BtnAnalyze) "https://github.com/acme/widgets"
                        "20260101_120000")
                     idle_session)
  = idle_session.
Proof.
  destruct (non_object_submission_raises
              (sample_inputs (backend_replying (JArr [JStr "task-1"]))
                 (Some BtnAnalyze) "https://github.com/acme/widgets"
                 "20260101_120000")
              idle_session (JArr [JStr "task-1"])
              eq_refl eq_refl eq_refl eq_refl)
    as (e & _ & Hs & _).
  exact Hs.
Defined.

(** ** The documentation section *)

Lemma stats_tab_keeps_session d : keeps (fun s => s) (stats_tab d).
Proof. unfold stats_tab. frame_rule. Qed.

Lemma stats_tab_no_button d :
  emits (fun ev => negb (is_download_button ev) && is_display ev) (stats_tab d).
Proof. unfold stats_tab. trace_rule. Qed.

#[local] Arguments stats_tab : simpl never.

Lemma document_fields doc v :
  Py.contains "error" doc = Ok false ->
  Py.get doc "doc_content" (JStr EmptyString) = Ok v ->
  Py.truthy v = true ->
  exists fields,
    doc = JObj fields
    /\ Py.lookup "error" fields = None
    /\ Py.lookup "doc_content" fields = Some v.
Proof.
  unfold Py.contains, Py.get.
  destruct doc; try discriminate.
  intros Herror Hget Htruthy. exists fields.
  destruct (Py.lookup "error" fields); [discriminate|].
  destruct (Py.lookup "doc_content" fields) as [w|].
  - injection Hget as <-. auto.
  - injection Hget as <-. discriminate.
Qed.

Lemma results_section_with_document i s d fields doc :
  Py.truthy (task_id s) = true ->
  check_task_status (net i AtResults) (task_id s) = Ok d ->
  current_status_of d = Ok (JStr "completed") ->
  download_documentation (net i AtDownload) (task_id s) = Ok (JObj fields) ->
  Py.lookup "error" fields = None ->
  Py.lookup "doc_content" fields = Some doc ->
  Py.truthy doc = true ->
  download_accepts doc = true ->
  results_section i s
  = (outcome_of (stats_tab d s), s,
     [ Shown Divider;
       Shown (Header "Documentation");
       Called (GetStatus (task_id s)) (Ok d);
       Called (GetDownload (task_id s)) (Ok (JObj fields));
       Shown (Tabs ["Preview"; "Raw Markdown"; "Stats"]);
       Shown (Markdown doc);
       Shown (Code doc);
       Shown (DownloadButton doc (file_name (now i))) ]
     ++ trace_of (stats_tab d s))%list.
Proof.
  intros Htid Hd Hst Hdoc Herror Hcontent Htruthy Haccepts.
  pose proof (stats_tab_keeps_session d s) as Hkeep. unfold session_of in Hkeep.
  unfold results_section, show_documentation. cbn.
  rewrite Htid. cbn. rewrite Hd. cbn. rewrite Hst. cbn.
  change (Py.eq_str (JStr "completed") "completed") with true. cbn.
  rewrite Hdoc. cbn. unfold Py.contains, Py.get.
  rewrite Herror, Hcontent. cbn. rewrite Htruthy. cbn.
  unfold bind, eval, show, emit, st_download_button. cbn.
  rewrite Haccepts. cbn.
  unfold outcome_of, trace_of.
  destruct (stats_tab d s) as [[o s'] t]. cbn in *. now subst s'.
Qed.

Lemma results_section_refused_document i s d fields doc :
  Py.truthy (task_id s) = true ->
  check_task_status (net i AtResults) (task_id s) = Ok d ->
  current_status_of d = Ok (JStr "completed") ->
  download_documentation (net i AtDownload) (task_id s) = Ok (JObj fields) ->
  Py.lookup "error" fields = None ->
  Py.lookup "doc_content" fields = Some doc ->
  Py.truthy doc = true ->
  download_accepts doc = false ->
  results_section i s
  = (Halted (Uncaught (Exn StreamlitAPIException "Invalid binary data format")),
     s,
     [ Shown Divider;
       Shown (Header "Documentation");
       Called (GetStatus (task_id s)) (Ok d);
       Called (GetDownload (task_id s)) (Ok (JObj fields));
       Shown (Tabs ["Preview"; "Raw Markdown"; "Stats"]);
       Shown (Markdown doc);
       Shown (Code doc) ]).
Proof.
  intros Htid Hd Hst Hdoc Herror Hcontent Htruthy Haccepts.
  unfold results_section, show_documentation. cbn.
  rewrite Htid. cbn. rewrite Hd. cbn. rewrite Hst. cbn.
  change (Py.eq_str (JStr "completed") "completed") with true. cbn.
  rewrite Hdoc. cbn. unfold Py.contains, Py.get.
  rewrite Herror, Hcontent. cbn. rewrite Htruthy. cbn.
  unfold bind, eval, show, emit, st_download_button. cbn.
  rewrite Haccepts. reflexivity.
Qed.

Lemma results_section_button i s data name :
  In (Shown (DownloadButton data name)) (trace_of (results_section i s)) ->
  name = file_name (now i)
  /\ Py.truthy data = true
  /\ download_accepts data = true
  /\ exists d fields,
       check_task_status (net i AtResults) (task_id s) = Ok d
       /\ current_status_of d = Ok (JStr "completed")
       /\ download_documentation (net i AtDownload) (task_id s)
          = Ok (JObj fields)
       /\ Py.lookup "error" fields = None
       /\ Py.lookup "doc_content" fields = Some data.
Proof.
  destruct (check_task_status_returns (net i AtResults) (task_id s)) as [d Hd].
  destruct (download_documentation_returns (net i AtDownload) (task_id s))
    as [doc Hdoc].
  unfold results_section, show_documentation. cbn.
  destruct (Py.truthy (task_id s)); cbn; [|tauto].
  rewrite Hd. cbn.
  destruct (current_status_of d) as [st|] eqn:Hst; cbn; [|intuition discriminate].
  destruct (Py.eq_str st "completed") eqn:Hcompleted; cbn.
  2:{ run; intuition discriminate. }
  apply eq_str_true in Hcompleted. subst st.
  rewrite Hdoc. cbn.
  destruct (Py.contains "error" doc) as [[]|] eqn:Herror; cbn.
  1:{ run; intuition discriminate. }
  2:{ intuition discriminate. }
  destruct (Py.get doc "doc_content" (JStr EmptyString)) as [v|] eqn:Hget; cbn;
    [|intuition discriminate].
  destruct (Py.truthy v) eqn:Htruthy; cbn; [|intuition discriminate].
  unfold bind, eval, show, emit, st_download_button. cbn.
  destruct (download_accepts v) eqn:Haccepts; cbn; [|intuition discriminate].
  pose proof (stats_tab_no_button d s) as Hnone.
  unfold trace_of in Hnone.
  destruct (stats_tab d s) as [[o s'] t]. cbn [snd] in Hnone. cbn.
  intros Hin.
  repeat (destruct Hin as [Hin|Hin]; try discriminate).
  - injection Hin as Hdata Hname. subst data name.
    destruct (document_fields doc v Herror Hget Htruthy)
      as (fields & -> & Herr & Hcontent).
    repeat split; auto. exists d, fields. auto.
  - exfalso. rewrite forallb_forall in Hnone.
    specialize (Hnone _ Hin). discriminate.
Qed.

Lemma results_section_download_error i s d fields message :
  Py.truthy (task_id s) = true ->
  check_task_status (net i AtResults) (task_id s) = Ok d ->
  current_status_of d = Ok (JStr "completed") ->
  download_documentation (net i AtDownload) (task_id s) = Ok (JObj fields) ->
  Py.lookup "error" fields = Some message ->
  results_section i s
  = (Done tt, s,
     [ Shown Divider;
       Shown (Header "Documentation");
       Called (GetStatus (task_id s)) (Ok d);
       Called (GetDownload (task_id s)) (Ok (JObj fields));
       Shown (Error [Lit "Error downloading documentation: "; Str message]) ]).
Proof.
  intros Htid Hd Hst Hdoc Herror.
  unfold results_section, show_documentation. cbn.
  rewrite Htid. cbn. rewrite Hd. cbn. rewrite Hst. cbn.
  change (Py.eq_str (JStr "completed") "completed") with true. cbn.
  rewrite Hdoc. cbn. unfold Py.contains, Py.subscript.
  rewrite Herror. reflexivity.
Qed.

(** X12. For a completed task whose download comes back as a dict with an
    ["error"] key (as it does for every failed download request), the
    documentation section shows "Error downloading documentation: ..." and
    nothing else, even if the dict also carries a document; the pass goes
    on to its end. *)
Theorem download_error_is_shown i s d :
  Py.truthy (task_id s) = true ->
  check_task_status (net i AtResults) (task_id s) = Ok d ->
  current_status_of d = Ok (JStr "completed") ->
  (forall fields message,
     download_documentation (net i AtDownload) (task_id s) = Ok (JObj fields) ->
     Py.lookup "error" fields = Some message ->
     results_section i s
     = (Done tt, s,
        [ Shown Divider;
          Shown (Header "Documentation");
          Called (GetStatus (task_id s)) (Ok d);
          Called (GetDownload (task_id s)) (Ok (JObj fields));
          Shown (Error [Lit "Error downloading documentation: "; Str message]) ]))
  /\ (is_failure (net i AtDownload (GetDownload (task_id s))) = true ->
      exists message,
        shown (trace_of (results_section i s))
        = [ Divider; Header "Documentation";
            Error [Lit "Error downloading documentation: ";
                   Str (JStr message)] ]).
Proof.
  intros Htid Hd Hst. split.
  - intros fields message Hdoc Herror.
    exact (results_section_download_error i s d fields message
             Htid Hd Hst Hdoc Herror).
  - unfold is_failure. intros Hfail.
    destruct (download_documentation_cases (net i AtDownload) (task_id s))
      as [(r&j&Hr&Hc&_)|[(r&e&Hr&Hc&_)|[(r&_&_&H)|(e&_&H)]]];
      try (rewrite Hr in Hfail; apply Z.eqb_eq in Hc; rewrite Hc in Hfail;
           discriminate);
      eexists;
      rewrite (results_section_download_error i s d _ _ Htid Hd Hst H eq_refl);
      reflexivity.
Qed.

Lemma download_error_is_shown_witness :
  shown (trace_of (results_section
                     (split_inputs (backend_reporting "completed")
                        backend_unavailable "20260101_120000")
                     busy_session))
  = [ Divider; Header "Documentation";
      Error [Lit "Error downloading documentation: ";
             Str (JStr "Failed to download documentation")] ].
Proof.
  pose proof (proj1 (download_error_is_shown
                (split_inputs (backend_reporting "completed")
                   backend_unavailable "20260101_120000")
                busy_session (status_record "completed" 40 "parsing")
                eq_refl eq_refl eq_refl)
              [("error", JStr "Failed to download documentation")]
              (JStr "Failed to download documentation") eq_refl eq_refl) as H.
  now rewrite H.
Defined.

(** X13. For a completed task whose download has no ["error"] key and whose
    ["doc_content"] is missing or empty, the documentation section shows
    the warning "Documentation is empty or not yet generated." and neither
    tabs nor a download button. *)
Theorem empty_document_is_warned i s d fields :
  Py.truthy (task_id s) = true ->
  check_task_status (net i AtResults) (task_id s) = Ok d ->
  current_status_of d = Ok (JStr "completed") ->
  download_documentation (net i AtDownload) (task_id s) = Ok (JObj fields) ->
  Py.lookup "error" fields = None ->
  Py.truthy (match Py.lookup "doc_content" fields with
             | Some v => v
             | None => JStr EmptyString
             end) = false ->
  results_section i s
  = (Done tt, s,
     [ Shown Divider;
       Shown (Header "Documentation");
       Called (GetStatus (task_id s)) (Ok d);
       Called (GetDownload (task_id s)) (Ok (JObj fields));
       Shown (Warning [Lit "Documentation is empty or not yet generated."]) ]).
Proof.
  intros Htid Hd Hst Hdoc Herror Hempty.
  unfold results_section, show_documentation. cbn.
  rewrite Htid. cbn. rewrite Hd. cbn. rewrite Hst. cbn.
  change (Py.eq_str (JStr "completed") "completed") with true. cbn.
  rewrite Hdoc. cbn. unfold Py.contains, Py.get.
  rewrite Herror. cbn. rewrite Hempty. reflexivity.
Qed.

Lemma empty_document_is_warned_witness :
  shown (trace_of (results_section
                     (split_inputs (backend_reporting "completed")
                        (backend_replying (JObj [("size", JNum 0)]))
                        "20260101_120000")
                     busy_session))
  = [ Divider; Header "Documentation";
      Warning [Lit "Documentation is empty or not yet generated."] ].
Proof.
  pose proof (empty_document_is_warned
                (split_inputs (backend_reporting "completed")
                   (backend_replying (JObj [("size", JNum 0)]))
                   "20260101_120000")
                busy_session (status_record "completed" 40 "parsing")
                [("size", JNum 0)]
                eq_refl eq_refl eq_refl eq_refl eq_refl eq_refl) as H.
  now rewrite H.
Defined.

(** X14. Whenever the documentation section shows a download button, the
    task is completed, the button offers the very document shown in the
    preview and raw tabs, that document is the non-empty ["doc_content"] of
    an error-free download, and the file is named
    [documentation_<clock>.md]. *)
Theorem download_button_offers_the_shown_document i s data name :
  In (Shown (DownloadButton data name)) (trace_of (results_section i s)) ->
  name = file_name (now i)
  /\ Py.truthy data = true
  /\ In (Shown (Markdown data)) (trace_of (results_section i s))
  /\ In (Shown (Code data)) (trace_of (results_section i s))
  /\ exists d fields,
       check_task_status (net i AtResults) (task_id s) = Ok d
       /\ current_status_of d = Ok (JStr "completed")
       /\ download_documentation (net i AtDownload) (task_id s)
          = Ok (JObj fields)
       /\ Py.lookup "error" fields = None
       /\ Py.lookup "doc_content" fields = Some data.
Proof.
  intros Hin.
  assert (Htid : Py.truthy (task_id s) = true).
  { destruct (Py.truthy (task_id s)) eqn:Htid; [reflexivity|].
    rewrite (results_section_idle i s Htid) in Hin. destruct Hin. }
  destruct (results_section_button i s data name Hin)
    as (Hname & Htruthy & Haccepts & d & fields
        & Hd & Hst & Hdoc & Herror & Hcontent).
  pose proof (results_section_with_document i s d fields data
                Htid Hd Hst Hdoc Herror Hcontent Htruthy Haccepts) as Hr.
  rewrite Hr. unfold trace_of at 1 3. cbn [snd].
  split; [exact Hname|]. split; [exact Htruthy|].
  split; [cbn; tauto|]. split; [cbn; tauto|].
  exists d, fields. auto.
Qed.

Lemma download_button_offers_the_shown_document_witness :
  In (Shown (Markdown (JStr "# Widgets")))
     (trace_of (results_section
                  (sample_inputs (backend_reporting "completed") None
                     "https://github.com/acme/widgets" "20260101_120000")
                  busy_session)).
Proof.
  refine (proj1 (proj2 (proj2 (download_button_offers_the_shown_document
            (sample_inputs (backend_reporting "completed") None
               "https://github.com/acme/widgets" "20260101_120000")
            busy_session (JStr "# Widgets")
            "documentation_20260101_120000.md" _)))).
  vm_compute. do 7 right. left. reflexivity.
Defined.

(** X15. A completed task with an error-free download whose
    ["doc_content"] is a non-empty string is shown in three tabs: the
    document as markdown, the document as code with the download button,
    and then the statistics; the section ends as the statistics tab ends.
    When ["doc_content"] is truthy but not a string, [st.download_button]
    refuses it: the section stops after the code view, with the exception
    uncaught, and shows neither the button nor the statistics. *)
Theorem completed_document_is_shown i s d fields doc :
  Py.truthy (task_id s) = true ->
  check_task_status (net i AtResults) (task_id s) = Ok d ->
  current_status_of d = Ok (JStr "completed") ->
  download_documentation (net i AtDownload) (task_id s) = Ok (JObj fields) ->
  Py.lookup "error" fields = None ->
  Py.lookup "doc_content" fields = Some doc ->
  Py.truthy doc = true ->
  (download_accepts doc = true ->
   results_section i s
   = (outcome_of (stats_tab d s), s,
      [ Shown Divider;
        Shown (Header "Documentation");
        Called (GetStatus (task_id s)) (Ok d);
        Called (GetDownload (task_id s)) (Ok (JObj fields));
        Shown (Tabs ["Preview"; "Raw Markdown"; "Stats"]);
        Shown (Markdown doc);
        Shown (Code doc);
        Shown (DownloadButton doc (file_name (now i))) ]
      ++ trace_of (stats_tab d s))%list)
  /\ (download_accepts doc = false ->
      results_section i s
      = (Halted (Uncaught (Exn StreamlitAPIException
                             "Invalid binary data format")),
         s,
         [ Shown Divider;
           Shown (Header "Documentation");
           Called (GetStatus (task_id s)) (Ok d);
           Called (GetDownload (task_id s)) (Ok (JObj fields));
           Shown (Tabs ["Preview"; "Raw Markdown"; "Stats"]);
           Shown (Markdown doc);
           Shown (Code doc) ])).
Proof.
  intros Htid Hd Hst Hdoc Herror Hcontent Htruthy. split; intros Haccepts.
  - exact (results_section_with_document i s d fields doc
             Htid Hd Hst Hdoc Herror Hcontent Htruthy Haccepts).
  - exact (results_section_refused_document i s d fields doc
             Htid Hd Hst Hdoc Herror Hcontent Htruthy Haccepts).
Qed.

Lemma completed_document_is_shown_witness :
  shown (trace_of (results_section
                     (sample_inputs (backend_reporting "completed") None
                        "https://github.com/acme/widgets" "20260101_120000")
                     busy_session))
  = [ Divider; Header "Documentation";
      Tabs ["Preview"; "Raw Markdown"; "Stats"];
      Markdown (JStr "# Widgets"); Code (JStr "# Widgets");
      DownloadButton (JStr "# Widgets") "documentation_20260101_120000.md";
      Metric "Total Files" [Str (JNum 0)];
      Metric "Total Entities" [Str (JNum 0)];
      Metric "Doc Size" [Grouped (JNum 0); Lit " chars"] ]
  /\ shown (trace_of (results_section
                        (split_inputs (backend_reporting "completed")
                           (backend_replying (JObj [("doc_content", JNum 42)]))
                           "20260101_120000")
                        busy_session))
     = [ Divider; Header "Documentation";
         Tabs ["Preview"; "Raw Markdown"; "Stats"];
         Markdown (JNum 42); Code (JNum 42) ].
Proof.
  split.
  - pose proof (proj1 (completed_document_is_shown
                  (sample_inputs (backend_reporting "completed") None
                     "https://github.com/acme/widgets" "20260101_120000")
                  busy_session (status_record "completed" 40 "parsing")
                  [("doc_content", JStr "# Widgets")] (JStr "# Widgets")
                  eq_refl eq_refl eq_refl eq_refl eq_refl eq_refl eq_refl)
                eq_refl) as H.
    rewrite H. reflexivity.
  - pose proof (proj2 (completed_document_is_shown
                  (split_inputs (backend_reporting "completed")
                     (backend_replying (JObj [("doc_content", JNum 42)]))
                     "20260101_120000")
                  busy_session (status_record "completed" 40 "parsing")
                  [("doc_content", JNum 42)] (JNum 42)
                  eq_refl eq_refl eq_refl eq_refl eq_refl eq_refl eq_refl)
                eq_refl) as H.
    rewrite H. reflexivity.
Defined.

(** X16. In the statistics tab a missing ["result"], or a result without
    ["stats"] and ["repo_info"], gives the three metrics their defaults
    (0, 0 and "0 chars") and no repository information. *)
Theorem stats_default_to_zero d s fields :
  progress_field d "result" (JObj []) = Ok (JObj fields) ->
  Py.lookup "stats" fields = None ->
  Py.lookup "repo_info" fields = None ->
  stats_tab d s
  = (Done tt, s,
     [ Shown (Metric "Total Files" [Str (JNum 0)]);
       Shown (Metric "Total Entities" [Str (JNum 0)]);
       Shown (Metric "Doc Size" [Grouped (JNum 0); Lit " chars"]) ]).
Proof.
  intros Hresult Hstats Hinfo.
  unfold stats_tab. cbn. rewrite Hresult. cbn.
  unfold Py.get at 1. rewrite Hstats. cbn.
  unfold Py.get. cbn. rewrite Hinfo. reflexivity.
Qed.

Lemma stats_default_to_zero_witness :
  stats_tab (status_record "completed" 100 "done") busy_session
  = (Done tt, busy_session,
     [ Shown (Metric "Total Files" [Str (JNum 0)]);
       Shown (Metric "Total Entities" [Str (JNum 0)]);
       Shown (Metric "Doc Size" [Grouped (JNum 0); Lit " chars"]) ]).
Proof.
  exact (stats_default_to_zero (status_record "completed" 100 "done")
           busy_session [] eq_refl eq_refl eq_refl).
Defined.

(** X17. In the statistics tab, when the two counts are values [st.metric]
    accepts (not a list or a dict) and ["documentation_size"] is not a
    number, the size cannot take the thousands separator: the first two
    metrics are shown, then the format raises and the pass stops with the
    exception uncaught. *)
Theorem non_numeric_doc_size_raises d s fields stats size :
  progress_field d "result" (JObj []) = Ok (JObj fields) ->
  Py.lookup "stats" fields = Some (JObj stats) ->
  metric_accepts (match Py.lookup "total_files" stats with
                  | Some v => v
                  | None => JNum 0
                  end) = true ->
  metric_accepts (match Py.lookup "total_entities" stats with
                  | Some v => v
                  | None => JNum 0
                  end) = true ->
  Py.lookup "documentation_size" stats = Some size ->
  Py.is_number size = false ->
  exists e,
    stats_tab d s
    = (Halted (Uncaught e), s,
       [ Shown (Metric "Total Files"
                  [Str (match Py.lookup "total_files" stats with
                        | Some v => v
                        | None => JNum 0
                        end)]);
         Shown (Metric "Total Entities"
                  [Str (match Py.lookup "total_entities" stats with
                        | Some v => v
                        | None => JNum 0
                        end)]) ]).
Proof.
  intros Hresult Hstats Hfiles Hentities Hsize Hnum.
  unfold stats_tab. cbn. rewrite Hresult. cbn.
  unfold Py.get at 1. rewrite Hstats. cbn.
  unfold Py.get. cbn.
  unfold bind, eval, show, emit, st_metric. cbn.
  rewrite Hfiles, Hentities, Hsize. cbn.
  unfold format_grouped. rewrite Hnum.
  destruct size; cbn; eauto.
Qed.

Lemma non_numeric_doc_size_raises_witness :
  exists e,
    outcome_of
      (stats_tab
         (JObj [("progress",
                 JObj [("status", JStr "completed");
                       ("result",
                        JObj [("stats",
                               JObj [("documentation_size", JStr "12 kB")])])])])
         busy_session)
    = Halted (Uncaught e).
Proof.
  destruct (non_numeric_doc_size_raises
              (JObj [("progress",
                      JObj [("status", JStr "completed");
                            ("result",
                             JObj [("stats",
                                    JObj [("documentation_size",
                                           JStr "12 kB")])])])])
              busy_session _ _ (JStr "12 kB")
              eq_refl eq_refl eq_refl eq_refl eq_refl eq_refl)
    as [e He].
  exists e. now rewrite He.
Defined.

(** ** The sidebar and a pass without a task *)

Lemma render_starts_with_sidebar i s :
  exists rest,
    trace_of (render i s)
    = (page_top ++ trace_of (sidebar i s)
       ++ trace_of (input_column i (session_of (sidebar i s))) ++ rest)%list.
Proof.
  destruct (sidebar_result i s) as (t1 & Hside & Ht1).
  set (s1 := session_of (sidebar i s)) in *. clearbody s1.
  rewrite render_sections, Hside.
  destruct (input_column i s1) as [[[[]|h2] s2] t2].
  - destruct (status_column i s2) as [[[[]|h3] s3] t3].
    + destruct (results_section i s3) as [[[[]|h4] s4] t4];
        eexists; unfold trace_of; cbn [snd]; reflexivity.
    + eexists; unfold trace_of; cbn [snd]; reflexivity.
  - exists []. unfold trace_of. cbn [snd]. now rewrite app_nil_r.
Qed.

Lemma input_column_shows_button i s :
  In (Shown (Button BtnAnalyze)) (trace_of (input_column i s)).
Proof.
  unfold input_column. cbn.
  destruct (when (clicked i BtnAnalyze) (submit i (text_input i (repo_url s))) s)
    as [[o s2] t2].
  cbn. tauto.
Qed.

(** X18. When the health check fails (the request raises or answers with a
    status other than 200) the sidebar says "Backend is not responding" and
    shows how to start the backend; the pass is not stopped by it: the URL
    field and the analyze button are still rendered. *)
Theorem unreachable_backend_is_reported i s :
  is_failure (net i AtSidebar GetHealth) = true ->
  In (Called GetHealth (Ok (JBool false))) (trace_of (render i s))
  /\ In (Shown (Error [Lit "Backend is not responding"])) (trace_of (render i s))
  /\ In (Shown (Info [Lit backend_hint])) (trace_of (render i s))
  /\ In (Shown (Button BtnAnalyze)) (trace_of (render i s)).
Proof.
  intros Hfail.
  destruct (render_starts_with_sidebar i s) as [rest Htrace].
  assert (Hhealth : check_backend_health (net i AtSidebar) = Ok false).
  { unfold is_failure in Hfail.
    unfold check_backend_health, try_except, res_bind.
    destruct (net i AtSidebar GetHealth) as [r|e]; [|reflexivity].
    apply negb_true_iff in Hfail. now rewrite Hfail. }
  assert (Hside : forall ev,
             In ev [ Called GetHealth (Ok (JBool false));
                     Shown (Error [Lit "Backend is not responding"]);
                     Shown (Info [Lit backend_hint]) ] ->
             In ev (trace_of (sidebar i s))).
  { intros ev Hev. unfold sidebar. cbn. rewrite Hhealth. cbn.
    destruct (when _ _ s) as [[o s2] t2]. cbn.
    cbn in Hev. intuition. }
  pose proof (input_column_shows_button i (session_of (sidebar i s))) as Hbutton.
  rewrite Htrace.
  repeat split.
  1-3: apply in_or_app; right; apply in_or_app; left; apply Hside; cbn; tauto.
  apply in_or_app; right; apply in_or_app; right; apply in_or_app; left.
  exact Hbutton.
Qed.

Lemma unreachable_backend_is_reported_witness :
  In (Shown (Error [Lit "Backend is not responding"]))
     (trace_of (render (sample_inputs backend_down None
                          "https://github.com/acme/widgets" "20260101_120000")
                       idle_session)).
Proof.
  exact (proj1 (proj2 (unreachable_backend_is_reported
           (sample_inputs backend_down None
              "https://github.com/acme/widgets" "20260101_120000")
           idle_session eq_refl))).
Defined.

(** X19. With no task in the session and the analyze button not pressed,
    the pass shows the page top, the sidebar, the URL field and button and
    the footer, and runs to its end: it does not poll, download or wait,
    and shows neither the status panel nor the documentation section. *)
Theorem without_task_nothing_is_polled i s :
  Py.truthy (task_id s) = false ->
  clicked i BtnAnalyze = false ->
  render i s
  = (Done tt, session_of (sidebar i s),
     page_top
     ++ trace_of (sidebar i s)
     ++ [ Shown (Header "Generate Documentation");
          Shown (TextInput "GitHub Repository URL"
                   (repo_url (session_of (sidebar i s))));
          Shown (Button BtnAnalyze) ]
     ++ page_bottom)%list
  /\ polls (trace_of (render i s)) = []
  /\ downloads (trace_of (render i s)) = 0%nat
  /\ sleeps (trace_of (render i s)) = [].
Proof.
  intros Htid Hclick.
  destruct (sidebar_result i s) as (t1 & Hside & Ht1).
  destruct (display_only t1 Ht1) as (Hp1 & Hd1 & _ & Hs1).
  pose proof (sidebar_keeps_task_id i s) as Htask.
  set (s1 := session_of (sidebar i s)) in *. clearbody s1.
  assert (Hr : render i s
               = (Done tt, s1,
                  page_top ++ t1
                  ++ [ Shown (Header "Generate Documentation");
                       Shown (TextInput "GitHub Repository URL" (repo_url s1));
                       Shown (Button BtnAnalyze) ]
                  ++ page_bottom)%list).
  { rewrite render_sections, Hside.
    rewrite (input_column_not_clicked i _ Hclick).
    rewrite <- Htask in Htid.
    rewrite (status_column_idle i _ Htid), (results_section_idle i _ Htid).
    reflexivity. }
  rewrite Hr. unfold trace_of at 1 2 3 4. cbn [snd].
  rewrite Hside. unfold trace_of. cbn [snd].
  rewrite !polls_app, !downloads_app, !sleeps_app, Hp1, Hd1, Hs1.
  repeat split.
Qed.

Lemma without_task_nothing_is_polled_witness :
  polls (trace_of (render (sample_inputs (backend_reporting "processing") None
                             "https://github.com/acme/widgets"
                             "20260101_120000")
                          idle_session)) = [].
Proof.
  exact (proj1 (proj2 (without_task_nothing_is_polled
           (sample_inputs (backend_reporting "processing") None
              "https://github.com/acme/widgets" "20260101_120000")
           idle_session eq_refl eq_refl))).
Defined.

Lemma input_column_shows_field i s :
  In (Shown (TextInput "GitHub Repository URL" (repo_url s)))
     (trace_of (input_column i s)).
Proof.
  unfold input_column. cbn.
  destruct (when (clicked i BtnAnalyze) (submit i (text_input i (repo_url s))) s)
    as [[o s2] t2].
  cbn. tauto.
Qed.

Lemma sidebar_session i s :
  session_of (sidebar i s)
  = let selected_example :=
      nth (example_choice i) (placeholder :: example_repos) placeholder in
    if negb (String.eqb selected_example placeholder)
       && clicked i BtnUseExample
    then set_repo_url selected_example s
    else s.
Proof.
  destruct (check_backend_health_returns (net i AtSidebar)) as [healthy E].
  unfold sidebar. cbn. rewrite E. cbn.
  destruct healthy; cbn;
    destruct (negb _); cbn; try destruct (clicked i BtnUseExample); reflexivity.
Qed.

(** X20. "Use This Example", pressed with one of the three examples
    selected, stores that example as [repo_url]; the URL field of the same
    pass is rendered with it, and every example passes the URL check of the
    analyze button.  Without the press, or with the placeholder selected,
    the sidebar leaves the session alone. *)
Theorem example_button_fills_url i s :
  (clicked i BtnUseExample = true ->
   (1 <= example_choice i <= 3)%nat ->
   let u := nth (example_choice i - 1) example_repos EmptyString in
   session_of (sidebar i s) = set_repo_url u s
   /\ invalid_url u = false
   /\ In (Shown (TextInput "GitHub Repository URL" u)) (trace_of (render i s)))
  /\ (clicked i BtnUseExample = false \/ example_choice i = 0%nat ->
      session_of (sidebar i s) = s).
Proof.
  split.
  - intros Hclick Hrange.
    assert (Hsession :
              session_of (sidebar i s)
              = set_repo_url (nth (example_choice i - 1) example_repos EmptyString) s
              /\ invalid_url (nth (example_choice i - 1) example_repos EmptyString)
                 = false).
    { rewrite sidebar_session, Hclick.
      destruct (example_choice i) as [|[|[|[|n]]]]; try lia;
        split; reflexivity. }
    destruct Hsession as [Hsession Hvalid].
    cbv zeta. split; [exact Hsession|]. split; [exact Hvalid|].
    destruct (render_starts_with_sidebar i s) as [rest Htrace].
    pose proof (input_column_shows_field i (session_of (sidebar i s))) as Hfield.
    replace (repo_url (session_of (sidebar i s)))
      with (nth (example_choice i - 1) example_repos EmptyString) in Hfield
      by (rewrite Hsession; reflexivity).
    rewrite Htrace.
    apply in_or_app; right; apply in_or_app; right; apply in_or_app; left.
    exact Hfield.
  - intros [Hclick|Hchoice]; rewrite sidebar_session.
    + cbv zeta. rewrite Hclick. destruct (negb _); reflexivity.
    + rewrite Hchoice. reflexivity.
Qed.

Lemma example_button_fills_url_witness :
  repo_url (session_of (sidebar
              {| net := fun _ => backend_down;
                 example_choice := 2;
                 clicked := pressing (Some BtnUseExample);
                 text_input := fun d => d;
                 now := "20260101_120000" |}
              idle_session))
  = "https://github.com/fastapi/fastapi".
Proof.
  destruct (proj1 (example_button_fills_url
              {| net := fun _ => backend_down;
                 example_choice := 2;
                 clicked := pressing (Some BtnUseExample);
                 text_input := fun d => d;
                 now := "20260101_120000" |}
              idle_session) eq_refl (conj (le_S _ _ (le_n 1)) (le_S _ _ (le_n 2))))
    as (Hs & _).
  now rewrite Hs.
Defined.

(** ** The failed poll, polled again *)

(** C3, on the code.  When the status request fails, the latest poll result
    of the pass is the record [{"status": "error", "error": ...}], yet the
    pass does not stop polling: it waits (unless "Refresh Status" was
    pressed) and ends in [st.rerun()], and the pass that follows calls
    [check_task_status] for the same task again. *)
Theorem failed_poll_is_polled_again i s :
  clicked i BtnAnalyze = false ->
  Py.truthy (task_id s) = true ->
  is_failure (net i AtStatusPanel (GetStatus (task_id s))) = true ->
  exists message,
    latest_poll (trace_of (render i s)) = Some (Ok (failed_poll message))
    /\ Py.get (failed_poll message) "status" JNull = Ok (JStr "error")
    /\ outcome_of (render i s) = Halted Rerun
    /\ sleeps (trace_of (render i s))
       = (if clicked i BtnRefresh then [] else [Slept 3])
    /\ forall i',
         clicked i' BtnAnalyze = false ->
         hd_error (polls (trace_of (render i' (session_of (render i s)))))
         = Some (check_task_status (net i' AtStatusPanel) (task_id s)).
Proof.
  intros Hclick Htid Hfail.
  destruct (failed_poll_pass i s Hclick Htid Hfail)
    as (message & before & Hrecord & Hp & Hs & Htask & Hr).
  exists message.
  split; [|split; [reflexivity|split; [|split]]].
  - rewrite Hr. unfold trace_of, latest_poll. cbn [snd].
    rewrite !polls_app, Hp. destruct (clicked i BtnRefresh); reflexivity.
  - now rewrite Hr.
  - rewrite Hr. unfold trace_of. cbn [snd].
    rewrite !sleeps_app, Hs. destruct (clicked i BtnRefresh); reflexivity.
  - intros i' Hclick'. rewrite <- Htask.
    apply render_polls_first; [exact Hclick'|]. now rewrite Htask.
Qed.

Lemma failed_poll_is_polled_again_witness :
  outcome_of (render (sample_inputs backend_unavailable None
                        "https://github.com/acme/widgets" "20260101_120000")
                     busy_session)
  = Halted Rerun
  /\ sleeps (trace_of (render (sample_inputs backend_unavailable None
                                 "https://github.com/acme/widgets"
                                 "20260101_120000")
                              busy_session))
     = [Slept 3].
Proof.
  destruct (failed_poll_is_polled_again
              (sample_inputs backend_unavailable None
                 "https://github.com/acme/widgets" "20260101_120000")
              busy_session eq_refl eq_refl eq_refl)
    as (message & _ & _ & Houtcome & Hsleeps & _).
  split; [exact Houtcome | exact Hsleeps].
Defined.

(** ** A percentage the progress bar refuses *)



